(** * npp_updater: the update workflow of [src/npp_update.py]

    A shallow embedding of the Notepad++ updater script.  Pure helpers are
    Rocq functions; the parts of the script that talk to the registry, the
    network, the file system and the installer process run in a small
    state-and-exception monad over an explicit environment. *)

From Stdlib Require Import ZArith NArith String Ascii List Bool Lia.
From stdpp Require Import gmap strings list.

Local Open Scope Z_scope.
Set Warnings "-register-all".

(** ** Python exceptions

    Only the classes the script can meet are listed.  The handlers of the
    script name base classes, so each class comes with the tests
    [isinstance(e, C)] the [except] clauses perform. *)

Inductive exn : Type :=
| KeyError (key : string)
| TypeError
| AttributeError
| InvalidVersion (text : string)        (* packaging.version.InvalidVersion *)
| ConnectionError                       (* requests: transport failure, timeout *)
| HTTPError                             (* requests: raise_for_status on 4xx/5xx *)
| MissingSchema                         (* requests: the URL names no scheme *)
| JSONDecodeError                       (* requests.exceptions.JSONDecodeError *)
| ProtocolError                         (* urllib3: the body broke off while it was read *)
| FileNotFoundError
| PermissionError
| DiskFullError                         (* OSError of a write that fails, e.g. ENOSPC *)
| CalledProcessError.                   (* subprocess: non-zero exit status *)

(** [requests.exceptions.RequestException]; the JSON error of [requests]
    derives from it as well as from [ValueError]. *)
Definition is_RequestException (e : exn) : bool :=
  match e with
  | ConnectionError | HTTPError | MissingSchema | JSONDecodeError => true
  | _ => false
  end.

(** [ValueError]; [InvalidVersion] is a subclass. *)
Definition is_ValueError (e : exn) : bool :=
  match e with
  | JSONDecodeError | InvalidVersion _ => true
  | _ => false
  end.

(** [OSError], which [IOError] and [WindowsError] alias in Python 3.
    [RequestException] itself derives from [IOError]; the exceptions of
    [urllib3] derive from [Exception] alone. *)
Definition is_OSError (e : exn) : bool :=
  match e with
  | FileNotFoundError | PermissionError | DiskFullError => true
  | ConnectionError | HTTPError | MissingSchema | JSONDecodeError => true
  | _ => false
  end.

Definition is_CalledProcessError (e : exn) : bool :=
  match e with
  | CalledProcessError => true
  | _ => false
  end.

(** A call either returns a value or raises. *)
Inductive result (A : Type) : Type :=
| Ok (a : A)
| Raise (e : exn).
Arguments Ok {A} a.
Arguments Raise {A} e.

(** ** String helpers (Python [str] methods used by the script) *)

Module Str.

Definition is_digit (c : ascii) : bool :=
  (48 <=? nat_of_ascii c)%nat && (nat_of_ascii c <=? 57)%nat.

(** [s.split(sep)] for a one-character separator: never the empty list. *)
Fixpoint split (sep : ascii) (s : string) : list string :=
  match s with
  | EmptyString => [EmptyString]
  | String c r =>
      if Ascii.eqb c sep then EmptyString :: split sep r
      else match split sep r with
           | h :: t => String c h :: t
           | [] => [String c EmptyString]
           end
  end.

(** [int(s)] on a string of ASCII digits, most significant digit first. *)
Fixpoint int_of_digits (acc : N) (s : string) : option N :=
  match s with
  | EmptyString => Some acc
  | String c r =>
      if is_digit c
      then int_of_digits (10 * acc + N.of_nat (nat_of_ascii c - 48))%N r
      else None
  end.

(** [s.lstrip(c)] for a one-character set. *)
Fixpoint lstrip (c : ascii) (s : string) : string :=
  match s with
  | String a r => if Ascii.eqb a c then lstrip c r else s
  | EmptyString => EmptyString
  end.

Fixpoint startswith (p s : string) : bool :=
  match p, s with
  | EmptyString, _ => true
  | String a p', String b s' => Ascii.eqb a b && startswith p' s'
  | String _ _, EmptyString => false
  end.

(** [needle in hay]: some suffix of [hay] starts with [needle]. *)
Fixpoint contains (needle hay : string) : bool :=
  startswith needle hay
  || match hay with
     | EmptyString => false
     | String _ r => contains needle r
     end.

(** [s.endswith(suffix)]: walk [s] until what is left is [suffix]. *)
Fixpoint endswith (s suffix : string) : bool :=
  String.eqb s suffix
  || match s with
     | EmptyString => false
     | String _ r => endswith r suffix
     end.

(** Python truthiness of a [str]. *)
Definition truthy (s : string) : bool :=
  match s with
  | EmptyString => false
  | String _ _ => true
  end.

End Str.

(** ** URLs, as [requests] looks at them before it sends anything *)

Module Url.

(** ASCII characters for which [str.isspace] holds. *)
Definition is_space (c : ascii) : bool :=
  let n := nat_of_ascii c in
  ((9 <=? n)%nat && (n <=? 13)%nat) || ((28 <=? n)%nat && (n <=? 32)%nat).

(** [s.lstrip()]. *)
Fixpoint lstrip (s : string) : string :=
  match s with
  | String c r => if is_space c then lstrip r else s
  | EmptyString => EmptyString
  end.

Definition lower_char (c : ascii) : ascii :=
  let n := nat_of_ascii c in
  if (65 <=? n)%nat && (n <=? 90)%nat then ascii_of_nat (n + 32) else c.

(** [s.lower()] on the ASCII letters. *)
Fixpoint lower (s : string) : string :=
  match s with
  | String c r => String (lower_char c) (lower r)
  | EmptyString => EmptyString
  end.

(** The text, leading blanks aside and in any case, starts with "http://"
    or "https://".  Without that [requests] raises [MissingSchema],
    [InvalidSchema] or [InvalidURL] before anything is sent: only these two
    prefixes have a transport adapter. *)
Definition has_http_scheme (url : string) : bool :=
  let u := lower (lstrip url) in
  Str.startswith "http://" u || Str.startswith "https://" u.

End Url.

(** ** Versions ([packaging.version])

    The script orders versions with [packaging.version.parse] and the rich
    comparisons of its [Version] class. *)

Module Version.

(** Modelled from the spec: [packaging.version] is an imported library
    whose source is not under src/.  A version is "parsed from a dotted
    numeric string"; parsing "fails with MalformedVersion if either string
    cannot be parsed into a dotted numeric sequence".  Only the release
    segment is kept, which is all a dotted numeric string has. *)
Record t : Type := mk { release : list N }.

Definition parse_component (s : string) : option N :=
  match s with
  | EmptyString => None
  | String _ _ => Str.int_of_digits 0%N s
  end.

Fixpoint parse_components (l : list string) : option (list N) :=
  match l with
  | [] => Some []
  | s :: r =>
      match parse_component s, parse_components r with
      | Some n, Some ns => Some (n :: ns)
      | _, _ => None
      end
  end.

(** Modelled from the spec: [parse], on the dotted numeric strings of the
    spec; every other text is a parse failure ([InvalidVersion]). *)
Definition parse (s : string) : result t :=
  match parse_components (Str.split "." s) with
  | Some ns => Ok (mk ns)
  | None => Raise (InvalidVersion s)
  end.

Fixpoint dropwhile {A} (p : A -> bool) (l : list A) : list A :=
  match l with
  | [] => []
  | x :: r => if p x then dropwhile p r else l
  end.

(** Modelled from the spec: the comparison key of a release-only version.
    The library compares keys in which the trailing zero components of the
    release are dropped ("missing trailing components treated as zero"):
    [reversed(dropwhile(lambda x: x == 0, reversed(release)))]. *)
Definition key (v : t) : list N :=
  rev (dropwhile (N.eqb 0) (rev (release v))).

(** Python's ordering of tuples of integers: the first position at which
    they differ decides, and a proper prefix is smaller. *)
Fixpoint tuple_cmp (a b : list N) : comparison :=
  match a, b with
  | [], [] => Eq
  | [], _ :: _ => Lt
  | _ :: _, [] => Gt
  | x :: a', y :: b' =>
      match N.compare x y with
      | Eq => tuple_cmp a' b'
      | c => c
      end
  end.

(** [v1 < v2] and [v1 > v2] of the [Version] class: the same tests on keys. *)
Definition lt (v1 v2 : t) : bool :=
  match tuple_cmp (key v1) (key v2) with Lt => true | _ => false end.

Definition gt (v1 v2 : t) : bool :=
  match tuple_cmp (key v1) (key v2) with Gt => true | _ => false end.

End Version.

(** [compare_version], lines 49-67. *)
Definition compare_version (current_version latest_version : string) : result Z :=
  match Version.parse current_version with
  | Raise e => Raise e
  | Ok v1 =>
      match Version.parse latest_version with
      | Raise e => Raise e
      | Ok v2 =>
          if Version.lt v1 v2 then Ok (-1)
          else if Version.gt v1 v2 then Ok 1
          else Ok 0
      end
  end.

(** *** The ordering of the spec, section 4.1

    "Comparison is lexicographic over numeric components left-to-right; a
    shorter sequence is conceptually zero-padded to the longer one's length
    before comparing." *)

Module VersionSpec.

Definition pad (n : nat) (l : list N) : list N :=
  l ++ repeat 0%N (n - length l).

(** Component-wise comparison of two sequences of the same length. *)
Fixpoint componentwise (a b : list N) : comparison :=
  match a, b with
  | x :: a', y :: b' =>
      match N.compare x y with
      | Eq => componentwise a' b'
      | c => c
      end
  | _, _ => Eq
  end.

Definition padded_compare (a b : list N) : comparison :=
  let n := Nat.max (length a) (length b) in
  componentwise (pad n a) (pad n b).

(** LESS, EQUAL, GREATER as the integers the script returns. *)
Definition sign (c : comparison) : Z :=
  match c with Lt => -1 | Eq => 0 | Gt => 1 end.

(** The syntax "digits, then any number of dot-digits groups". *)
Definition all_digits (s : string) : bool :=
  Str.truthy s && forallb Str.is_digit (list_ascii_of_string s).

Definition dotted_numeric (s : string) : bool :=
  forallb all_digits (Str.split "." s).

(** The numeric components of a dotted numeric string. *)
Definition components (s : string) : list N :=
  match Version.parse s with
  | Ok v => Version.release v
  | Raise _ => []
  end.

End VersionSpec.

(** ** JSON values as Python objects

    [res.json()] yields dictionaries, lists, strings, numbers, booleans and
    [None].  A dictionary keeps its fields in insertion order. *)

Inductive json : Type :=
| JNull                                  (* None *)
| JBool (b : bool)
| JNum (n : Z)
| JStr (s : string)
| JArr (items : list json)
| JObj (fields : list (string * json)).

Module Py.

Fixpoint assoc (k : string) (fields : list (string * json)) : option json :=
  match fields with
  | [] => None
  | (k', v) :: r => if String.eqb k k' then Some v else assoc k r
  end.

(** [v[k]] for a string key [k]. *)
Definition getitem (v : json) (k : string) : result json :=
  match v with
  | JObj fields =>
      match assoc k fields with
      | Some x => Ok x
      | None => Raise (KeyError k)
      end
  | _ => Raise TypeError
  end.

(** [for x in v]: the items the loop would visit. *)
Definition iter (v : json) : result (list json) :=
  match v with
  | JArr items => Ok items
  | JObj fields => Ok (map (fun kv => JStr (fst kv)) fields)
  | JStr s => Ok (map (fun c => JStr (String c EmptyString)) (list_ascii_of_string s))
  | _ => Raise TypeError
  end.

(** [not v] is [negb (truthy v)]. *)
Definition truthy (v : json) : bool :=
  match v with
  | JNull => false
  | JBool b => b
  | JNum n => negb (n =? 0)
  | JStr s => Str.truthy s
  | JArr items => match items with [] => false | _ => true end
  | JObj fields => match fields with [] => false | _ => true end
  end.

(** [v.lstrip(c)] and [v.endswith(suffix)]: methods of [str] only. *)
Definition lstrip (v : json) (c : ascii) : result string :=
  match v with
  | JStr s => Ok (Str.lstrip c s)
  | _ => Raise AttributeError
  end.

Definition endswith (v : json) (suffix : string) : result bool :=
  match v with
  | JStr s => Ok (Str.endswith s suffix)
  | _ => Raise AttributeError
  end.

(** Truthiness of an [Optional[str]]. *)
Definition truthy_opt (o : option string) : bool :=
  match o with
  | None => false
  | Some s => Str.truthy s
  end.

End Py.

(** ** The outside world

    The environment holds what the script cannot change: the registry, the
    answers of the network, the behaviour of the installer process and the
    paths the file system refuses to write or delete.  The state holds what
    a run changes or leaves behind: the files present and the log of
    requests sent and processes started. *)

(** How reading the raw body of a streamed response into a file ends. *)
Inductive copy_outcome : Type :=
| Copied                       (* every byte was read and written *)
| BrokenStream                 (* the connection failed while the body was read *)
| WriteFailed.                 (* a write to the file failed *)

Record response : Type := mkResponse {
  status_ok : bool;            (* does raise_for_status pass? *)
  body : option json;          (* None: the body is not JSON *)
  raw : copy_outcome           (* what copying [r.raw] will meet *)
}.

Inductive proc_outcome : Type :=
| ExitZero                     (* the installer ran and returned 0 *)
| ExitNonZero                  (* it ran and returned a failure status *)
| LaunchFailed.                (* the process could not be started *)

Record Env : Type := mkEnv {
  registry : gmap string (gmap string string);   (* HKLM: key path -> value name -> data *)
  http : nat -> string -> option response;       (* answer to the n-th request; None: transport error *)
  installer : list string -> proc_outcome;       (* by argv *)
  unwritable : gset string;
  undeletable : gset string;
  malformed : string -> bool                     (* http(s) URLs requests still rejects: no host, bad port, bad label *)
}.

Record State : Type := mkState {
  files : gset string;
  net_log : list string;                         (* URLs requested, oldest first *)
  proc_log : list (list string)                  (* argv of processes started, oldest first *)
}.

Definition M (A : Type) : Type := Env -> State -> result A * State.

Definition M_ret {A} (a : A) : M A := fun _ s => (Ok a, s).

Definition M_bind {A B} (m : M A) (k : A -> M B) : M B :=
  fun env s =>
    match m env s with
    | (Ok a, s') => k a env s'
    | (Raise e, s') => (Raise e, s')
    end.

Definition lift {A} (r : result A) : M A := fun _ s => (r, s).

Definition raise {A} (e : exn) : M A := lift (Raise e).

(** [try: body  except C1: h1  except C2: h2 ...]: the first clause whose
    class test accepts the exception runs; with none, it propagates. *)
Fixpoint dispatch {A} (clauses : list ((exn -> bool) * M A)) (e : exn) : M A :=
  match clauses with
  | [] => raise e
  | (accepts, handler) :: r => if accepts e then handler else dispatch r e
  end.

Definition try_except {A} (body : M A) (clauses : list ((exn -> bool) * M A)) : M A :=
  fun env s =>
    match body env s with
    | (Ok a, s') => (Ok a, s')
    | (Raise e, s') => dispatch clauses e env s'
    end.

Declare Scope py_scope.
Delimit Scope py_scope with py.
Notation "x <- m ;; k" := (M_bind m (fun x => k))
  (at level 100, m at next level, right associativity) : py_scope.
Notation "m ;; k" := (M_bind m (fun _ => k))
  (at level 100, right associativity) : py_scope.
Local Open Scope py_scope.

(** *** winreg *)

Definition OpenKey (path : string) : M (gmap string string) :=
  fun env s =>
    match registry env !! path with
    | Some key => (Ok key, s)
    | None => (Raise FileNotFoundError, s)
    end.

Definition QueryValueEx (key : gmap string string) (name : string) : M string :=
  match key !! name with
  | Some data => M_ret data
  | None => raise FileNotFoundError
  end.

(** *** requests *)

Definition requests_get (url : string) : M response :=
  fun env s =>
    let s' := mkState (files s) (net_log s ++ [url]) (proc_log s) in
    match http env (length (net_log s)) url with
    | Some r => (Ok r, s')
    | None => (Raise ConnectionError, s')
    end.

Definition raise_for_status (r : response) : M unit :=
  if status_ok r then M_ret tt else raise HTTPError.

Definition response_json (r : response) : M json :=
  match body r with
  | Some v => M_ret v
  | None => raise JSONDecodeError
  end.

(** *** files and processes *)

(** [open(path, 'wb')]: the file exists from here on. *)
Definition open_wb (path : string) : M unit :=
  fun env s =>
    if decide (path ∈ unwritable env) then (Raise PermissionError, s)
    else (Ok tt, mkState ({[path]} ∪ files s) (net_log s) (proc_log s)).

(** [shutil.copyfileobj(r.raw, file)].  The raw stream is read past the
    wrappers of [requests], so a connection that fails here raises an
    exception of [urllib3]; a write that fails raises [OSError].  What was
    written so far stays in the file. *)
Definition copyfileobj (r : response) : M unit :=
  match raw r with
  | Copied => M_ret tt
  | BrokenStream => raise ProtocolError
  | WriteFailed => raise DiskFullError
  end.

Definition path_exists (path : string) : M bool :=
  fun _ s => (Ok (bool_decide (path ∈ files s)), s).

Definition os_remove (path : string) : M unit :=
  fun env s =>
    if decide (path ∈ files s) then
      if decide (path ∈ undeletable env) then (Raise PermissionError, s)
      else (Ok tt, mkState (files s ∖ {[path]}) (net_log s) (proc_log s))
    else (Raise FileNotFoundError, s).

(** [subprocess.run(argv, check=True)]. *)
Definition subprocess_run (argv : list string) : M unit :=
  fun env s =>
    let s' := mkState (files s) (net_log s) (proc_log s ++ [argv]) in
    match installer env argv with
    | ExitZero => (Ok tt, s')
    | ExitNonZero => (Raise CalledProcessError, s')
    | LaunchFailed => (Raise FileNotFoundError, s')
    end.

(** ** The script *)

Definition GITHUB_RELEASES_URL : string :=
  "https://api.github.com/repos/notepad-plus-plus/notepad-plus-plus/releases/latest".

Definition npp_reg_paths : list string :=
  [ "SOFTWARE\WOW6432Node\Microsoft\Windows\CurrentVersion\Uninstall\Notepad++";
    "SOFTWARE\Microsoft\Windows\CurrentVersion\Uninstall\Notepad++" ]%string.

(** The body of the [try] of lines 82-86 for one path. *)
Definition read_arch (path : string) : M (option string * string) :=
  key <- OpenKey path ;;
  display_name <- QueryValueEx key "DisplayName" ;;
  let arch := if Str.contains "x64" display_name then "x64"%string else "x86"%string in
  M_ret (Some arch, path).

(** The [for] loop of lines 80-90: [continue] on [WindowsError], and
    [None] with the empty path once the paths are exhausted. *)
Fixpoint get_arch_from (paths : list string) : M (option string * string) :=
  match paths with
  | [] => M_ret (None, EmptyString)
  | path :: rest => try_except (read_arch path) [(is_OSError, get_arch_from rest)]
  end.

(** [get_arch], lines 69-90. *)
Definition get_arch : M (option string * string) := get_arch_from npp_reg_paths.

(** [get_current_version], lines 92-109. *)
Definition get_current_version : M (option string * option string) :=
  r <- get_arch ;;
  let '(arch, reg_path) := r in
  if negb (Py.truthy_opt arch) then M_ret (None, None)
  else
    try_except
      (key <- OpenKey reg_path ;;
       version <- QueryValueEx key "DisplayVersion" ;;
       M_ret (Some version, arch))
      [(is_OSError, M_ret (None, None))].

(** [get_latest_version], lines 111-127. *)
Definition get_latest_version : M (option string) :=
  try_except
    (res <- requests_get GITHUB_RELEASES_URL ;;
     raise_for_status res ;;
     doc <- response_json res ;;
     tag <- lift (Py.getitem doc "tag_name") ;;
     version <- lift (Py.lstrip tag "v") ;;
     M_ret (Some version))
    [(is_RequestException, M_ret None);
     (is_ValueError, M_ret None)].

(** The test of lines 148-149 on one asset, with Python's short-circuit
    evaluation of [and] and [or]. *)
Definition asset_matches (arch : string) (asset : json) : result bool :=
  match Py.getitem asset "name" with
  | Raise e => Raise e
  | Ok name =>
      match Py.endswith name (arch +:+ ".exe") with
      | Raise e => Raise e
      | Ok a =>
          if a && String.eqb arch "x64" then Ok true
          else
            match Py.endswith name "Installer.exe" with
            | Raise e => Raise e
            | Ok c => Ok (c && String.eqb arch "x86")
            end
      end
  end.

(** The loop of lines 143-151: the value of [download_url] when the loop
    ends ([JNull] is Python's [None]). *)
Fixpoint select_download_url (arch : string) (assets : list json) : result json :=
  match assets with
  | [] => Ok JNull
  | asset :: rest =>
      match asset_matches arch asset with
      | Raise e => Raise e
      | Ok true => Py.getitem asset "browser_download_url"
      | Ok false => select_download_url arch rest
      end
  end.

(** Does [requests] send a request for this text?  It needs the http(s)
    prefix, and must pass the further checks of the library (host, port,
    labels), which the environment answers. *)
Definition sendable (env : Env) (url : string) : bool :=
  Url.has_http_scheme url && negb (malformed env url).

(** [requests.get] on the selected value.  Anything but a string is turned
    into text that names no scheme; that, and a string that is not
    [sendable], is rejected before anything is sent.  (The feed URL is a
    well-formed constant: [requests_get] sends it as it is.) *)
Definition requests_get_value (url : json) : M response :=
  fun env s =>
    match url with
    | JStr u => if sendable env u then requests_get u env s else (Raise MissingSchema, s)
    | _ => (Raise MissingSchema, s)
    end.

(** [get_installer], lines 129-170. *)
Definition get_installer (arch : string) : M (option string) :=
  try_except
    (res <- requests_get GITHUB_RELEASES_URL ;;
     raise_for_status res ;;
     doc <- response_json res ;;
     assets <- lift (Py.getitem doc "assets") ;;
     items <- lift (Py.iter assets) ;;
     download_url <- lift (select_download_url arch items) ;;
     if negb (Py.truthy download_url) then M_ret None
     else
       let filepath := ("npp_installer_" +:+ arch +:+ ".exe")%string in
       r <- requests_get_value download_url ;;
       raise_for_status r ;;
       open_wb filepath ;;
       copyfileobj r ;;
       M_ret (Some filepath))
    [(is_RequestException, M_ret None);
     (is_OSError, M_ret None)].

(** [if os.path.exists(path): os.remove(path)]. *)
Definition remove_if_exists (path : string) : M unit :=
  present <- path_exists path ;;
  if present then os_remove path else M_ret tt.

(** [run_installer], lines 172-200. *)
Definition run_installer (path : string) : M bool :=
  try_except
    (subprocess_run [path; "/S"%string] ;;
     remove_if_exists path ;;
     M_ret true)
    [(is_CalledProcessError, (remove_if_exists path ;; M_ret false));
     (is_OSError, (remove_if_exists path ;; M_ret false))].

(** [main], lines 202-240. *)
Definition main : M Z :=
  probe <- get_current_version ;;
  let '(current_version, arch) := probe in
  match current_version, arch with
  | Some cv, Some a =>
      if negb (Str.truthy cv) || negb (Str.truthy a) then M_ret 2
      else
        latest_version <- get_latest_version ;;
        match latest_version with
        | Some lv =>
            if negb (Str.truthy lv) then M_ret 3
            else
              result <- lift (compare_version cv lv) ;;
              if result <? 0 then
                downloaded <- get_installer a ;;
                if negb (Py.truthy_opt downloaded) then M_ret 4
                else
                  match downloaded with
                  | Some path =>
                      succeed <- run_installer path ;;
                      M_ret (if succeed : bool then 1 else 5)
                  | None => M_ret 4
                  end
              else M_ret 0
        | None => M_ret 3
        end
  | _, _ => M_ret 2
  end.

(** [sys.exit(main())], lines 242-243: the value [main] returns is the exit
    status; an exception that leaves [main] is reported by the interpreter,
    which then exits with status 1. *)
Definition exit_status (env : Env) (s : State) : Z :=
  match fst (main env s) with
  | Ok code => code
  | Raise _ => 1
  end.

(** The state a run starts from: nothing requested, nothing started. *)
Definition initial (fs : gset string) : State := mkState fs [] [].

(** ** Vocabulary of the statements *)

Definition is0 : N -> bool := N.eqb 0.

(** A release without its trailing zeros, as [Version.key] computes it. *)
Definition strip (l : list N) : list N := rev (Version.dropwhile is0 (rev l)).

(** Comparison with trailing zeros ignored, by recursion on both lists:
    the common form of the library's key comparison and of the padded
    comparison of the spec. *)
Fixpoint zcmp (a b : list N) : comparison :=
  match a, b with
  | [], _ => if forallb is0 b then Eq else Lt
  | _ :: _, [] => if forallb is0 a then Eq else Gt
  | x :: a', y :: b' =>
      match N.compare x y with
      | Eq => zcmp a' b'
      | c => c
      end
  end.

(** [hay] reads [pre], then [needle], then [post]. *)
Definition is_substring (needle hay : string) : Prop :=
  exists pre post, hay = (pre +:+ needle +:+ post)%string.

Definition has_suffix (s suffix : string) : Prop :=
  exists pre, s = (pre +:+ suffix)%string.

(** What the registry holds under one key path. *)
Definition display_name_at (env : Env) (path : string) : option string :=
  match registry env !! path with
  | Some key => key !! "DisplayName"%string
  | None => None
  end.

Definition display_version_at (env : Env) (path : string) : option string :=
  match registry env !! path with
  | Some key => key !! "DisplayVersion"%string
  | None => None
  end.

(** The first of [paths] that opens and has a display name, with that name. *)
Fixpoint first_named (env : Env) (paths : list string) : option (string * string) :=
  match paths with
  | [] => None
  | path :: rest =>
      match display_name_at env path with
      | Some name => Some (path, name)
      | None => first_named env rest
      end
  end.

(** The architecture marker of the spec, section 4.2. *)
Definition marker_arch (display_name : string) : string :=
  if Str.contains "x64" display_name then "x64"%string else "x86"%string.

(** The probe as section 4.2 words it: "trying each until one yields a
    display name and a display version"; [(None, None)] is NotInstalled. *)
Fixpoint probe_until_both (env : Env) (paths : list string) : option string * option string :=
  match paths with
  | [] => (None, None)
  | path :: rest =>
      match display_name_at env path, display_version_at env path with
      | Some name, Some version => (Some version, Some (marker_arch name))
      | _, _ => probe_until_both env rest
      end
  end.

(** The probe as the script has it: the first path with a display name is
    the only one asked for a display version. *)
Definition probe_first_named (env : Env) : option string * option string :=
  match first_named env npp_reg_paths with
  | None => (None, None)
  | Some (path, name) =>
      match display_version_at env path with
      | Some version => (Some version, Some (marker_arch name))
      | None => (None, None)
      end
  end.

(** The data model of the spec, section 3. *)
Inductive Architecture : Type := x86 | x64.

Definition arch_name (a : Architecture) : string :=
  match a with
  | x86 => "x86"
  | x64 => "x64"
  end.

Record AssetDescriptor : Type := mkAsset {
  name : string;
  downloadUrl : string
}.

(** An asset as the feed lists it. *)
Definition asset_json (d : AssetDescriptor) : json :=
  JObj [("name"%string, JStr (name d));
        ("browser_download_url"%string, JStr (downloadUrl d))].

(** The selection rule of the spec, section 4.4. *)
Definition eligible_suffix (a : Architecture) : string :=
  match a with
  | x64 => "x64.exe"
  | x86 => "Installer.exe"
  end.

Definition select (assets : list AssetDescriptor) (a : Architecture) : option AssetDescriptor :=
  find (fun d => Str.endswith (name d) (eligible_suffix a)) assets.

(** Terminal outcomes and the exit code table of the spec, section 6. *)
Inductive Outcome : Type :=
| UP_TO_DATE | UPDATED | NOT_FOUND | FETCH_FAILED | DOWNLOAD_FAILED | INSTALL_FAILED.

Definition exit_code (o : Outcome) : Z :=
  match o with
  | UP_TO_DATE => 0
  | UPDATED => 1
  | NOT_FOUND => 2
  | FETCH_FAILED => 3
  | DOWNLOAD_FAILED => 4
  | INSTALL_FAILED => 5
  end.

(** The probe found an installation: a version and an architecture, both
    non-empty.  The probe does not touch the state. *)
Definition installed (env : Env) (s : State) (cv a : string) : Prop :=
  get_current_version env s = (Ok (Some cv, Some a), s)
  /\ Str.truthy cv = true /\ Str.truthy a = true.

(** The feed gave a non-empty latest version, leaving state [s1]. *)
Definition fetched (env : Env) (s : State) (lv : string) (s1 : State) : Prop :=
  get_latest_version env s = (Ok (Some lv), s1) /\ Str.truthy lv = true.

(** The run reaches the download stage for architecture [a] in state [s1]:
    an installation was found, the latest version was fetched, and the
    comparison said "less". *)
Definition reaches_download (env : Env) (s : State) (a : string) (s1 : State) : Prop :=
  exists cv lv r,
    installed env s cv a /\ fetched env s lv s1
    /\ compare_version cv lv = Ok r /\ r < 0.

(** The run hands [path] to the installer runner in state [s2]. *)
Definition reaches_install (env : Env) (s : State) (path : string) (s2 : State) : Prop :=
  exists a s1,
    reaches_download env s a s1
    /\ get_installer a env s1 = (Ok (Some path), s2) /\ Str.truthy path = true.

(** The terminal outcome of a run from [s] that ends in [s'], read off the
    stages in the order of the state machine of the spec, section 4.7. *)
Inductive run_outcome (env : Env) (s : State) : Outcome -> State -> Prop :=
| Run_not_found v a :
    get_current_version env s = (Ok (v, a), s) ->
    Py.truthy_opt v && Py.truthy_opt a = false ->
    run_outcome env s NOT_FOUND s
| Run_fetch_failed cv a lv s1 :
    installed env s cv a ->
    get_latest_version env s = (Ok lv, s1) ->
    Py.truthy_opt lv = false ->
    run_outcome env s FETCH_FAILED s1
| Run_up_to_date cv a lv s1 r :
    installed env s cv a -> fetched env s lv s1 ->
    compare_version cv lv = Ok r -> 0 <= r ->
    run_outcome env s UP_TO_DATE s1
| Run_download_failed a s1 s2 :
    reaches_download env s a s1 ->
    get_installer a env s1 = (Ok None, s2) ->
    run_outcome env s DOWNLOAD_FAILED s2
| Run_install_failed path s2 s3 :
    reaches_install env s path s2 ->
    run_installer path env s2 = (Ok false, s3) ->
    run_outcome env s INSTALL_FAILED s3
| Run_updated path s2 s3 :
    reaches_install env s path s2 ->
    run_installer path env s2 = (Ok true, s3) ->
    run_outcome env s UPDATED s3.

(** ** Vocabulary of the further properties *)

(** The errors of indexing, iterating and calling a [str] method on a JSON
    value of the wrong shape; no [except] clause of the script names them. *)
Definition lookup_error (e : exn) : Prop :=
  (exists k, e = KeyError k) \/ e = TypeError \/ e = AttributeError.

(** [s] with one more request in its log. *)
Definition requested (url : string) (s : State) : State :=
  mkState (files s) (net_log s ++ [url]) (proc_log s).

(** [s] with one more process in its log. *)
Definition started (argv : list string) (s : State) : State :=
  mkState (files s) (net_log s) (proc_log s ++ [argv]).

(** [c] written [k] times. *)
Definition run_of (c : ascii) (k : nat) : string :=
  string_of_list_ascii (repeat c k).

(** The file name [get_installer] builds, line 157. *)
Definition installer_file (arch : string) : string :=
  ("npp_installer_" +:+ arch +:+ ".exe")%string.

(** A JSON object whose [name] field is the string [n]. *)
Definition named (asset : json) (n : string) : Prop :=
  Py.getitem asset "name" = Ok (JStr n).

(** The test of lines 148-149 on a name. *)
Definition eligible (arch n : string) : bool :=
  (Str.endswith n (arch +:+ ".exe") && String.eqb arch "x64")
  || (Str.endswith n "Installer.exe" && String.eqb arch "x86").

(** ** Sample environments *)

Module Sample.

Definition wow_path : string :=
  "SOFTWARE\WOW6432Node\Microsoft\Windows\CurrentVersion\Uninstall\Notepad++".

Definition native_path : string :=
  "SOFTWARE\Microsoft\Windows\CurrentVersion\Uninstall\Notepad++".

Definition key_of (display_name version : string) : gmap string string :=
  <["DisplayName"%string := display_name]> (<["DisplayVersion"%string := version]> ∅).

(** A 64-bit installation registered under the native path only. *)
Definition registry_x64 (version : string) : gmap string (gmap string string) :=
  <[native_path := key_of "Notepad++ (64-bit x64)" version]> ∅.

(** The first path has a display name but no version; the second has both. *)
Definition registry_split : gmap string (gmap string string) :=
  <[wow_path := <["DisplayName"%string := "Notepad++ (32-bit x86)"%string]> ∅]>
    (registry_x64 "8.6").

Definition asset (n u : string) : json :=
  JObj [("name"%string, JStr n); ("browser_download_url"%string, JStr u)].

Definition release (tag : string) (assets : list json) : json :=
  JObj [("tag_name"%string, JStr tag); ("assets"%string, JArr assets)].

Definition assets_863 : list json :=
  [asset "npp.8.6.3.Installer.exe" "https://example.org/npp.8.6.3.Installer.exe";
   asset "npp.8.6.3.portable.x64.zip" "https://example.org/npp.8.6.3.portable.x64.zip";
   asset "npp.8.6.3.Installer.x64.exe" "https://example.org/npp.8.6.3.Installer.x64.exe"].

Definition assets_864 : list json :=
  [asset "npp.8.6.4.Installer.x64.exe" "https://example.org/npp.8.6.4.Installer.x64.exe"].

Definition ok (doc : json) : option response := Some (mkResponse true (Some doc) Copied).

(** Every request is answered with the same document. *)
Definition always (doc : json) : nat -> string -> option response :=
  fun _ _ => ok doc.

(** The feed publishes 8.6.4 between the first and the second request. *)
Definition moving_feed : nat -> string -> option response :=
  fun n _ =>
    match n with
    | O => ok (release "v8.6.3" assets_863)
    | _ => ok (release "v8.6.4" assets_864)
    end.

Definition env_of (reg : gmap string (gmap string string))
    (net : nat -> string -> option response) (outcome : proc_outcome) : Env :=
  mkEnv reg net (fun _ => outcome) ∅ ∅ (fun _ => false).

(** 4.5.1 installed, 8.6.3 published, the installer succeeds. *)
Definition env_update : Env :=
  env_of (registry_x64 "4.5.1") (always (release "v8.6.3" assets_863)) ExitZero.

Definition env_install_fails : Env :=
  env_of (registry_x64 "4.5.1") (always (release "v8.6.3" assets_863)) ExitNonZero.

Definition env_current : Env :=
  env_of (registry_x64 "8.6") (always (release "v8.6" assets_863)) ExitZero.

Definition env_not_installed : Env :=
  env_of ∅ (always (release "v8.6.3" assets_863)) ExitZero.

Definition env_offline : Env :=
  env_of (registry_x64 "4.5.1") (fun _ _ => None) ExitZero.

Definition env_no_asset : Env :=
  env_of (registry_x64 "4.5.1")
    (always (release "v8.6.3" [asset "unrelated-file.zip" "https://example.org/z"])) ExitZero.

Definition env_split : Env :=
  env_of registry_split (always (release "v8.6.3" assets_863)) ExitZero.

Definition env_moving : Env := env_of (registry_x64 "4.5.1") moving_feed ExitZero.

(** The feed answers 200 with a JSON object that has no [tag_name]. *)
Definition env_no_tag : Env :=
  env_of (registry_x64 "8.6") (always (JObj [])) ExitZero.

(** The feed's tag is not a version number. *)
Definition env_bad_tag : Env :=
  env_of (registry_x64 "8.6") (always (release "nightly" assets_863)) ExitZero.

Definition start : State := initial ∅.




(** The installer fails and its file cannot be deleted afterwards. *)
Definition env_locked : Env :=
  mkEnv (registry_x64 "4.5.1") (always (release "v8.6.3" assets_863))
    (fun _ => ExitNonZero) ∅ {["npp_installer_x64.exe"%string]} (fun _ => false).

End Sample.

(** * Properties *)

(** ** Sample runs

    The scenarios of the spec, section 8, and of [test/test_updater.py]. *)

Example run_update_installed :
  main Sample.env_update Sample.start
  = (Ok 1, mkState ∅ [GITHUB_RELEASES_URL; GITHUB_RELEASES_URL;
                      "https://example.org/npp.8.6.3.Installer.x64.exe"%string]
             [["npp_installer_x64.exe"; "/S"]%string]).
Proof. vm_compute. reflexivity. Qed.

Example run_install_failed :
  fst (main Sample.env_install_fails Sample.start) = Ok 5
  /\ files (snd (main Sample.env_install_fails Sample.start)) = ∅.
Proof. split; vm_compute; reflexivity. Qed.

Example run_up_to_date :
  main Sample.env_current Sample.start = (Ok 0, mkState ∅ [GITHUB_RELEASES_URL] []).
Proof. vm_compute. reflexivity. Qed.

Example run_not_installed :
  main Sample.env_not_installed Sample.start = (Ok 2, Sample.start).
Proof. vm_compute. reflexivity. Qed.

Example run_offline :
  main Sample.env_offline Sample.start = (Ok 3, mkState ∅ [GITHUB_RELEASES_URL] []).
Proof. vm_compute. reflexivity. Qed.

Example run_no_asset :
  fst (main Sample.env_no_asset Sample.start) = Ok 4.
Proof. vm_compute. reflexivity. Qed.

Example latest_version_strips_v :
  fst (get_latest_version Sample.env_update Sample.start) = Ok (Some "8.6.3"%string).
Proof. vm_compute. reflexivity. Qed.

Example compare_version_malformed :
  compare_version "8.6" "nightly" = Raise (InvalidVersion "nightly").
Proof. reflexivity. Qed.

(** ** Version ordering *)

Section VersionOrder.

Import Version VersionSpec.

Lemma compare_0_l (y : N) :
  N.compare 0 y = if is0 y then Eq else Lt.
Proof. destruct y; reflexivity. Qed.

Lemma compare_0_r (x : N) :
  N.compare x 0 = if is0 x then Eq else Gt.
Proof. destruct x; reflexivity. Qed.

Lemma dropwhile_app {A} (p : A -> bool) (l : list A) (x : A) :
  dropwhile p (l ++ [x]) =
  if forallb p l then dropwhile p [x] else dropwhile p l ++ [x].
Proof.
  induction l as [|y l IH]; simpl; [reflexivity|].
  destruct (p y); simpl; [exact IH | reflexivity].
Qed.

Lemma dropwhile_all {A} (p : A -> bool) (l : list A) :
  forallb p l = true -> dropwhile p l = [].
Proof.
  induction l as [|y l IH]; simpl; [reflexivity|].
  destruct (p y); simpl; [exact IH | discriminate].
Qed.

Lemma forallb_rev {A} (p : A -> bool) (l : list A) :
  forallb p (rev l) = forallb p l.
Proof.
  induction l as [|y l IH]; simpl; [reflexivity|].
  rewrite forallb_app, IH. simpl. rewrite andb_true_r. apply andb_comm.
Qed.

Lemma strip_cons (x : N) (l : list N) :
  strip (x :: l) = if forallb is0 (x :: l) then [] else x :: strip l.
Proof.
  unfold strip. simpl rev. rewrite dropwhile_app, forallb_rev. simpl.
  destruct (forallb is0 l) eqn:Hl.
  - rewrite andb_true_r, (dropwhile_all is0 (rev l)) by (rewrite forallb_rev; exact Hl).
    destruct (is0 x); reflexivity.
  - rewrite andb_false_r. rewrite rev_app_distr. reflexivity.
Qed.

Lemma strip_all_zero (l : list N) : forallb is0 l = true -> strip l = [].
Proof.
  induction l as [|x l IH]; intros H; [reflexivity|].
  rewrite strip_cons, H. reflexivity.
Qed.

Lemma strip_some_nonzero (l : list N) :
  forallb is0 l = false -> exists h t, strip l = h :: t.
Proof.
  destruct l as [|x l]; intros H; [discriminate|].
  rewrite strip_cons, H. eauto.
Qed.

Lemma tuple_cmp_nil_l (b : list N) :
  tuple_cmp [] (strip b) = if forallb is0 b then Eq else Lt.
Proof.
  destruct (forallb is0 b) eqn:H.
  - rewrite strip_all_zero by assumption. reflexivity.
  - destruct (strip_some_nonzero _ H) as (h & t & ->). reflexivity.
Qed.

Lemma tuple_cmp_nil_r (a : list N) :
  tuple_cmp (strip a) [] = if forallb is0 a then Eq else Gt.
Proof.
  destruct (forallb is0 a) eqn:H.
  - rewrite strip_all_zero by assumption. reflexivity.
  - destruct (strip_some_nonzero _ H) as (h & t & ->). reflexivity.
Qed.

(** The key comparison of the library ignores trailing zeros. *)
Lemma key_cmp_zcmp (a b : list N) :
  tuple_cmp (strip a) (strip b) = zcmp a b.
Proof.
  revert b. induction a as [|x a IH]; intros b.
  - apply tuple_cmp_nil_l.
  - destruct b as [|y b].
    + apply (tuple_cmp_nil_r (x :: a)).
    + cbn [zcmp]. rewrite <- IH. rewrite !strip_cons. cbn [forallb].
      destruct (is0 x) eqn:Hx, (is0 y) eqn:Hy; cbn [andb];
        try (apply (N.eqb_eq 0 x) in Hx; subst x);
        try (apply (N.eqb_eq 0 y) in Hy; subst y).
      * cbn [N.compare].
        destruct (forallb is0 a) eqn:Ha, (forallb is0 b) eqn:Hb; cbn [tuple_cmp].
        -- rewrite !strip_all_zero by assumption. reflexivity.
        -- rewrite (strip_all_zero a) by assumption.
           destruct (strip_some_nonzero _ Hb) as (h & t & ->). reflexivity.
        -- rewrite (strip_all_zero b) by assumption.
           destruct (strip_some_nonzero _ Ha) as (h & t & ->). reflexivity.
        -- rewrite N.compare_refl. reflexivity.
      * rewrite compare_0_l, Hy.
        destruct (forallb is0 a); cbn [tuple_cmp]; [reflexivity|].
        rewrite compare_0_l, Hy. reflexivity.
      * rewrite compare_0_r, Hx.
        destruct (forallb is0 b); cbn [tuple_cmp]; [reflexivity|].
        rewrite compare_0_r, Hx. reflexivity.
      * reflexivity.
Qed.

Lemma componentwise_zeros (i j : nat) :
  componentwise (repeat 0%N i) (repeat 0%N j) = Eq.
Proof.
  revert j. induction i as [|i IH]; intros [|j]; simpl; auto.
Qed.

Lemma componentwise_zeros_l (b : list N) (i j : nat) :
  i = (length b + j)%nat ->
  componentwise (repeat 0%N i) (b ++ repeat 0%N j) =
  if forallb is0 b then Eq else Lt.
Proof.
  revert i. induction b as [|y b IH]; intros i Hi; simpl.
  - apply componentwise_zeros.
  - subst i. cbn [length Nat.add repeat app componentwise forallb].
    rewrite compare_0_l.
    destruct (is0 y); cbn [andb]; [apply IH; reflexivity | reflexivity].
Qed.

Lemma componentwise_zeros_r (a : list N) (i j : nat) :
  j = (length a + i)%nat ->
  componentwise (a ++ repeat 0%N i) (repeat 0%N j) =
  if forallb is0 a then Eq else Gt.
Proof.
  revert j. induction a as [|x a IH]; intros j Hj; simpl.
  - apply componentwise_zeros.
  - subst j. cbn [length Nat.add repeat app componentwise forallb].
    rewrite compare_0_r.
    destruct (is0 x); cbn [andb]; [apply IH; reflexivity | reflexivity].
Qed.

Lemma componentwise_padded (a b : list N) (i j : nat) :
  (length a + i = length b + j)%nat ->
  componentwise (a ++ repeat 0%N i) (b ++ repeat 0%N j) = zcmp a b.
Proof.
  revert b i j. induction a as [|x a IH]; intros b i j H.
  - simpl in H. apply (componentwise_zeros_l b i j H).
  - destruct b as [|y b].
    + simpl in H. apply (componentwise_zeros_r (x :: a) i j). simpl. lia.
    + simpl. destruct (N.compare x y); try reflexivity.
      apply IH. simpl in H. lia.
Qed.

(** The padded comparison of the spec ignores trailing zeros too. *)
Lemma padded_compare_zcmp (a b : list N) : padded_compare a b = zcmp a b.
Proof.
  unfold padded_compare, pad. apply componentwise_padded. lia.
Qed.

Lemma zcmp_refl (a : list N) : zcmp a a = Eq.
Proof.
  induction a as [|x a IH]; [reflexivity|].
  simpl. rewrite N.compare_refl. exact IH.
Qed.

Lemma zcmp_opp (a b : list N) : zcmp b a = CompOpp (zcmp a b).
Proof.
  revert b. induction a as [|x a IH]; intros [|y b]; simpl;
    try (destruct (is0 _ && forallb is0 _); reflexivity); [reflexivity|].
  rewrite (N.compare_antisym x y).
  destruct (N.compare x y); simpl; auto.
Qed.

Lemma tuple_cmp_eq (a b : list N) : tuple_cmp a b = Eq -> a = b.
Proof.
  revert b. induction a as [|x a IH]; intros [|y b]; simpl; try discriminate; auto.
  destruct (N.compare_spec x y) as [Hxy|Hxy|Hxy]; try discriminate.
  intros Hab. subst y. f_equal. apply IH, Hab.
Qed.

Lemma tuple_cmp_lt_trans (a b c : list N) :
  tuple_cmp a b = Lt -> tuple_cmp b c = Lt -> tuple_cmp a c = Lt.
Proof.
  revert b c. induction a as [|x a IH]; intros [|y b] [|z c]; simpl;
    try discriminate; auto.
  destruct (N.compare_spec x y) as [Hxy|Hxy|Hxy]; try discriminate;
    destruct (N.compare_spec y z) as [Hyz|Hyz|Hyz]; try discriminate; intros H1 H2.
  - subst. rewrite N.compare_refl. eapply IH; eassumption.
  - subst. rewrite (proj2 (N.compare_lt_iff _ _)) by assumption. reflexivity.
  - subst. rewrite (proj2 (N.compare_lt_iff _ _)) by assumption. reflexivity.
  - rewrite (proj2 (N.compare_lt_iff x z)) by lia. reflexivity.
Qed.

(** [compare_version] on two texts that parse: the sign of the
    zero-insensitive comparison of their releases. *)
Lemma compare_version_parsed (a b : string) (va vb : Version.t) :
  parse a = Ok va -> parse b = Ok vb ->
  compare_version a b = Ok (sign (zcmp (release va) (release vb))).
Proof.
  intros Ha Hb. unfold compare_version, lt, gt. rewrite Ha, Hb.
  change (key va) with (strip (release va)).
  change (key vb) with (strip (release vb)).
  rewrite key_cmp_zcmp. destruct (zcmp _ _); reflexivity.
Qed.

Lemma int_of_digits_total (s : string) :
  forallb Str.is_digit (list_ascii_of_string s) = true ->
  forall acc, exists n, Str.int_of_digits acc s = Some n.
Proof.
  induction s as [|c s IH]; simpl; intros H acc; [eauto|].
  apply andb_true_iff in H as [Hc Hs]. rewrite Hc. apply IH, Hs.
Qed.

Lemma parse_components_total (l : list string) :
  forallb all_digits l = true -> exists ns, parse_components l = Some ns.
Proof.
  induction l as [|s l IH]; simpl; intros H; [eauto|].
  apply andb_true_iff in H as [Hs Hl].
  destruct (IH Hl) as [ns ->].
  unfold all_digits in Hs. apply andb_true_iff in Hs as [Hne Hd].
  destruct (int_of_digits_total s Hd 0%N) as [n Hn].
  unfold parse_component. destruct s; [discriminate|]. rewrite Hn. eauto.
Qed.

(** Every dotted numeric string parses. *)
Lemma parse_dotted_numeric (s : string) :
  dotted_numeric s = true -> parse s = Ok (Version.mk (components s)).
Proof.
  intros H. unfold components, parse.
  destruct (parse_components_total _ H) as [ns ->]. reflexivity.
Qed.

End VersionOrder.

(** C3.  On valid dotted numeric strings [compare_version] returns the sign
    of the component-wise comparison after zero-padding the shorter sequence;
    it returns 0 on equal arguments, swapping the arguments negates the
    result, "less" is transitive and "equal" may be substituted on the left,
    so the result is a strict total order on padded sequences; and the four
    sample comparisons of the spec evaluate as stated. *)
Theorem compare_version_padded_total_order (a b c : string) :
  VersionSpec.dotted_numeric a = true ->
  VersionSpec.dotted_numeric b = true ->
  VersionSpec.dotted_numeric c = true ->
  compare_version a b =
    Ok (VersionSpec.sign
          (VersionSpec.padded_compare (VersionSpec.components a) (VersionSpec.components b)))
  /\ compare_version a a = Ok 0
  /\ (forall r, compare_version a b = Ok r -> compare_version b a = Ok (- r))
  /\ (compare_version a b = Ok (-1) -> compare_version b c = Ok (-1) ->
      compare_version a c = Ok (-1))
  /\ (compare_version a b = Ok 0 -> compare_version a c = compare_version b c)
  /\ compare_version "7.1.2" "8.6" = Ok (-1)
  /\ compare_version "8.9.4" "8.5" = Ok 1
  /\ compare_version "8.6.4" "8.6.4" = Ok 0
  /\ compare_version "8.6" "8.6.0" = Ok 0.
Proof.
  intros Ha Hb Hc.
  pose proof (parse_dotted_numeric a Ha) as Pa.
  pose proof (parse_dotted_numeric b Hb) as Pb.
  pose proof (parse_dotted_numeric c Hc) as Pc.
  rewrite (compare_version_parsed a b _ _ Pa Pb), (compare_version_parsed a a _ _ Pa Pa),
    (compare_version_parsed b a _ _ Pb Pa), (compare_version_parsed b c _ _ Pb Pc),
    (compare_version_parsed a c _ _ Pa Pc).
  cbn [Version.release].
  set (la := VersionSpec.components a). set (lb := VersionSpec.components b).
  set (lc := VersionSpec.components c).
  repeat split; try reflexivity.
  - rewrite padded_compare_zcmp. reflexivity.
  - rewrite zcmp_refl. reflexivity.
  - intros r Hr. injection Hr as <-. rewrite (zcmp_opp la lb).
    destruct (zcmp la lb); reflexivity.
  - rewrite <- !key_cmp_zcmp. intros H1 H2.
    rewrite (tuple_cmp_lt_trans (strip la) (strip lb) (strip lc)); [reflexivity| |].
    + destruct (Version.tuple_cmp (strip la) (strip lb)); simpl in H1; congruence.
    + destruct (Version.tuple_cmp (strip lb) (strip lc)); simpl in H2; congruence.
  - rewrite <- !key_cmp_zcmp. intros H.
    assert (E : strip la = strip lb).
    { apply tuple_cmp_eq.
      destruct (Version.tuple_cmp (strip la) (strip lb)); simpl in H; congruence. }
    rewrite E. reflexivity.
Qed.

Lemma compare_version_padded_total_order_witness :
  compare_version "8.6" "8.6.0" = Ok 0
  /\ compare_version "8.6.0" "8.10" = Ok (-1)
  /\ compare_version "8.6" "8.10" = Ok (-1).
Proof.
  pose proof (compare_version_padded_total_order "8.6" "8.6.0" "8.10"
                eq_refl eq_refl eq_refl) as (H1 & _ & _ & _ & H5 & _).
  split; [exact H1|]. split; [reflexivity|].
  rewrite (H5 H1). reflexivity.
Defined.

(** ** Strings *)

Section StringFacts.

Lemma startswith_spec (p s : string) :
  Str.startswith p s = true <-> exists post, s = (p +:+ post)%string.
Proof.
  revert s. induction p as [|a p IH]; intros s; simpl.
  - split; [intros _; exists s; reflexivity | reflexivity].
  - destruct s as [|b s].
    + split; [discriminate | intros [post H]; discriminate].
    + rewrite andb_true_iff, Ascii.eqb_eq, IH. split.
      * intros [-> [post ->]]. exists post. reflexivity.
      * intros [post H]. injection H as -> ->. split; [reflexivity | eauto].
Qed.

Lemma contains_spec (needle hay : string) :
  Str.contains needle hay = true <-> is_substring needle hay.
Proof.
  unfold is_substring. induction hay as [|c hay IH]; simpl.
  - rewrite orb_false_r, startswith_spec. split.
    + intros [post H]. exists EmptyString, post. exact H.
    + intros (pre & post & H). destruct pre; [eauto | discriminate].
  - rewrite orb_true_iff, startswith_spec, IH. split.
    + intros [[post H] | (pre & post & H)].
      * exists EmptyString, post. exact H.
      * exists (String c pre), post. simpl. rewrite H. reflexivity.
    + intros (pre & post & H). destruct pre as [|c' pre].
      * left. exists post. exact H.
      * right. simpl in H. injection H as _ H. eauto.
Qed.

Lemma endswith_spec (s suffix : string) :
  Str.endswith s suffix = true <-> has_suffix s suffix.
Proof.
  unfold has_suffix. induction s as [|c s IH]; cbn [Str.endswith].
  - rewrite orb_false_r, String.eqb_eq. split.
    + intros <-. exists EmptyString. reflexivity.
    + intros [pre H]. destruct pre; [exact H | discriminate].
  - rewrite orb_true_iff, String.eqb_eq, IH. split.
    + intros [<- | [pre ->]].
      * exists EmptyString. reflexivity.
      * exists (String c pre). reflexivity.
    + intros [pre H]. destruct pre as [|c' pre].
      * left. exact H.
      * right. simpl in H. injection H as _ H. eauto.
Qed.

End StringFacts.

(** ** The installed-version probe *)

Section Probe.

Variable env : Env.
Variable s : State.

Lemma read_arch_eq (path : string) :
  read_arch path env s =
  match display_name_at env path with
  | Some display_name => (Ok (Some (marker_arch display_name), path), s)
  | None => (Raise FileNotFoundError, s)
  end.
Proof.
  unfold read_arch, display_name_at, M_bind, OpenKey, QueryValueEx.
  destruct (registry env !! path) as [key|]; [|reflexivity].
  destruct (key !! "DisplayName"%string); reflexivity.
Qed.

(** The loop stops at the first path with a display name and never raises. *)
Lemma get_arch_from_eq (paths : list string) :
  get_arch_from paths env s =
  (Ok match first_named env paths with
      | Some (path, display_name) => (Some (marker_arch display_name), path)
      | None => (None, EmptyString)
      end, s).
Proof.
  induction paths as [|path rest IH]; [reflexivity|].
  cbn [get_arch_from first_named]. unfold try_except. rewrite read_arch_eq.
  destruct (display_name_at env path); [reflexivity|].
  cbn [dispatch is_OSError]. exact IH.
Qed.

Lemma marker_arch_truthy (display_name : string) :
  Str.truthy (marker_arch display_name) = true.
Proof. unfold marker_arch. destruct (Str.contains _ _); reflexivity. Qed.

Lemma first_named_at (paths : list string) (path display_name : string) :
  first_named env paths = Some (path, display_name) ->
  In path paths /\ display_name_at env path = Some display_name.
Proof.
  induction paths as [|p rest IH]; [discriminate|]. cbn [first_named].
  destruct (display_name_at env p) as [n|] eqn:Hn.
  - intros H. injection H as <- <-. split; [left; reflexivity | exact Hn].
  - intros H. destruct (IH H) as [Hin Hd]. split; [right; exact Hin | exact Hd].
Qed.

Lemma first_named_exists (paths : list string) (path display_name : string) :
  In path paths -> display_name_at env path = Some display_name ->
  exists path' display_name', first_named env paths = Some (path', display_name').
Proof.
  induction paths as [|p rest IH]; [intros []|]. cbn [first_named].
  intros [-> | Hin] Hd.
  - rewrite Hd. eauto.
  - destruct (display_name_at env p); eauto.
Qed.

(** The probe reads the display version under the path [get_arch] chose,
    never raises and leaves the state alone. *)
Lemma get_current_version_eq :
  get_current_version env s = (Ok (probe_first_named env), s).
Proof.
  unfold get_current_version, get_arch, M_bind, probe_first_named.
  rewrite get_arch_from_eq.
  destruct (first_named env npp_reg_paths) as [[path display_name]|]; [|reflexivity].
  cbn [Py.truthy_opt]. rewrite marker_arch_truthy. cbn [negb].
  unfold try_except, M_bind, OpenKey, QueryValueEx, display_version_at.
  destruct (registry env !! path) as [key|]; [|reflexivity].
  destruct (key !! "DisplayVersion"%string); reflexivity.
Qed.

End Probe.

(** C10.  When some known registry path opens and yields a display name,
    [get_arch] returns an architecture for the first such path: "x64"
    exactly when that display name contains "x64", "x86" otherwise; it is
    never [None]. *)
Theorem get_arch_always_determined (env : Env) (s : State) (path display_name : string) :
  In path npp_reg_paths ->
  display_name_at env path = Some display_name ->
  exists path' display_name' arch,
    first_named env npp_reg_paths = Some (path', display_name')
    /\ display_name_at env path' = Some display_name'
    /\ get_arch env s = (Ok (Some arch, path'), s)
    /\ ((arch = "x64"%string /\ is_substring "x64" display_name')
        \/ (arch = "x86"%string /\ ~ is_substring "x64" display_name')).
Proof.
  intros Hin Hd.
  destruct (first_named_exists env _ _ _ Hin Hd) as (path' & name' & Hf).
  exists path', name', (marker_arch name').
  split; [exact Hf|]. split; [apply (first_named_at env _ _ _ Hf)|].
  split.
  - unfold get_arch. rewrite get_arch_from_eq, Hf. reflexivity.
  - unfold marker_arch. destruct (Str.contains "x64" name') eqn:Hc.
    + left. split; [reflexivity | apply contains_spec, Hc].
    + right. split; [reflexivity|]. intros Hs. apply contains_spec in Hs. congruence.
Qed.

Lemma get_arch_always_determined_witness :
  exists arch,
    get_arch Sample.env_split Sample.start = (Ok (Some arch, Sample.wow_path), Sample.start)
    /\ arch = "x86"%string.
Proof.
  destruct (get_arch_always_determined Sample.env_split Sample.start Sample.native_path
              "Notepad++ (64-bit x64)")
    as (path' & name' & arch & Hf & _ & Hg & _).
  - right. left. reflexivity.
  - vm_compute. reflexivity.
  - exists arch. vm_compute in Hf. injection Hf as <- <-.
    split; [exact Hg|]. vm_compute in Hg. congruence.
Defined.

(** C8, as the script has it.  The probe stops at the first known path, in
    order, that opens and yields a display name, derives the architecture
    from the "x64" marker in that name, and asks that path alone for the
    display version; it answers NotInstalled, [(None, None)], when no path
    yields a display name or when the chosen path has no display version.
    It never raises and changes nothing. *)
Theorem probe_reads_first_named_path (env : Env) (s : State) :
  get_current_version env s = (Ok (probe_first_named env), s)
  /\ (first_named env npp_reg_paths = None -> probe_first_named env = (None, None))
  /\ (forall path display_name,
        first_named env npp_reg_paths = Some (path, display_name) ->
        In path npp_reg_paths
        /\ display_name_at env path = Some display_name
        /\ probe_first_named env
           = match display_version_at env path with
             | Some version => (Some version, Some (marker_arch display_name))
             | None => (None, None)
             end).
Proof.
  split; [apply get_current_version_eq|]. unfold probe_first_named. split.
  - intros ->. reflexivity.
  - intros path display_name Hf.
    destruct (first_named_at env _ _ _ Hf) as [Hin Hd].
    rewrite Hf. auto.
Qed.

(** C8, as the spec words it, fails: with a display name but no version
    under the first path and both under the second, the probe answers
    NotInstalled although a later path yields both fields. *)
Lemma probe_does_not_try_until_both :
  probe_until_both Sample.env_split npp_reg_paths = (Some "8.6"%string, Some "x64"%string)
  /\ get_current_version Sample.env_split Sample.start = (Ok (None, None), Sample.start)
  /\ fst (get_current_version Sample.env_split Sample.start)
     <> Ok (probe_until_both Sample.env_split npp_reg_paths).
Proof.
  split; [vm_compute; reflexivity|].
  split; [vm_compute; reflexivity|].
  vm_compute. discriminate.
Qed.

(** ** Errors no handler names *)

Section LookupErrors.


Lemma getitem_raises (v : json) (k : string) (e : exn) :
  Py.getitem v k = Raise e -> e = KeyError k \/ e = TypeError.
Proof.
  destruct v; cbn [Py.getitem]; try (intros [= <-]; auto).
  destruct (Py.assoc k fields); [discriminate | intros [= <-]; auto].
Qed.

Lemma lstrip_raises (v : json) (c : ascii) (e : exn) :
  Py.lstrip v c = Raise e -> e = AttributeError.
Proof. destruct v; cbn [Py.lstrip]; congruence. Qed.

Lemma endswith_raises (v : json) (suffix : string) (e : exn) :
  Py.endswith v suffix = Raise e -> e = AttributeError.
Proof. destruct v; cbn [Py.endswith]; congruence. Qed.

Lemma iter_raises (v : json) (e : exn) :
  Py.iter v = Raise e -> e = TypeError.
Proof. destruct v; cbn [Py.iter]; congruence. Qed.

Lemma asset_matches_raises (arch : string) (asset : json) (e : exn) :
  asset_matches arch asset = Raise e -> lookup_error e.
Proof.
  unfold asset_matches, lookup_error.
  destruct (Py.getitem asset "name") as [n|e0] eqn:Hn.
  - destruct (Py.endswith n (arch +:+ ".exe")) as [a|e1] eqn:Ha.
    + destruct (a && String.eqb arch "x64"); [discriminate|].
      destruct (Py.endswith n "Installer.exe") as [c|e2] eqn:Hc; [discriminate|].
      intros [= <-]. apply endswith_raises in Hc. auto.
    + intros [= <-]. apply endswith_raises in Ha. auto.
  - intros [= <-]. apply getitem_raises in Hn as [-> | ->]; eauto.
Qed.

Lemma select_download_url_raises (arch : string) (items : list json) (e : exn) :
  select_download_url arch items = Raise e -> lookup_error e.
Proof.
  induction items as [|asset rest IH]; cbn [select_download_url]; [discriminate|].
  destruct (asset_matches arch asset) as [[|]|e0] eqn:Hm.
  - intros H. apply getitem_raises in H as [-> | ->]; unfold lookup_error; eauto.
  - exact IH.
  - intros [= <-]. apply (asset_matches_raises _ _ _ Hm).
Qed.

End LookupErrors.

(** ** The download stage, branch by branch *)

Section DownloadBranches.

Variable env : Env.

(** [get_installer], handler by handler. *)
Lemma get_installer_eq (a : string) (s : State) :
  get_installer a env s =
  let s1 := requested GITHUB_RELEASES_URL s in
  match http env (length (net_log s)) GITHUB_RELEASES_URL with
  | None => (Ok None, s1)
  | Some res =>
      if status_ok res then
        match body res with
        | None => (Ok None, s1)
        | Some doc =>
            match Py.getitem doc "assets" with
            | Raise e => (Raise e, s1)
            | Ok assets =>
                match Py.iter assets with
                | Raise e => (Raise e, s1)
                | Ok items =>
                    match select_download_url a items with
                    | Raise e => (Raise e, s1)
                    | Ok url =>
                        if Py.truthy url then
                          match url with
                          | JStr u =>
                              if sendable env u then
                                let s2 := requested u s1 in
                                match http env (length (net_log s1)) u with
                                | None => (Ok None, s2)
                                | Some r =>
                                    if status_ok r then
                                      if decide (installer_file a ∈ unwritable env)
                                      then (Ok None, s2)
                                      else
                                        let s3 := mkState ({[installer_file a]} ∪ files s2)
                                                    (net_log s2) (proc_log s2) in
                                        match raw r with
                                        | Copied => (Ok (Some (installer_file a)), s3)
                                        | BrokenStream => (Raise ProtocolError, s3)
                                        | WriteFailed => (Ok None, s3)
                                        end
                                    else (Ok None, s2)
                                end
                              else (Ok None, s1)
                          | _ => (Ok None, s1)
                          end
                        else (Ok None, s1)
                    end
                end
            end
        end
      else (Ok None, s1)
  end.
Proof.
  unfold get_installer, try_except, M_bind, requests_get_value, requests_get,
    raise_for_status, response_json, open_wb, copyfileobj, lift, raise, M_ret,
    requested, installer_file.
  cbn zeta.
  destruct (http env (length (net_log s)) GITHUB_RELEASES_URL) as [res|]; [|reflexivity].
  destruct (status_ok res); [|reflexivity].
  destruct (body res) as [doc|]; [|reflexivity].
  destruct (Py.getitem doc "assets") as [assets|e] eqn:Hassets.
  2:{ apply getitem_raises in Hassets as [-> | ->]; reflexivity. }
  destruct (Py.iter assets) as [items|e] eqn:Hitems.
  2:{ apply iter_raises in Hitems as ->. reflexivity. }
  destruct (select_download_url a items) as [url|e] eqn:Hsel.
  2:{ apply select_download_url_raises in Hsel as [[k ->] | [-> | ->]]; reflexivity. }
  destruct (Py.truthy url); cbn [negb]; [|reflexivity].
  destruct url as [| | |u| |]; try reflexivity.
  destruct (sendable env u); [|reflexivity].
  cbn [net_log files proc_log].
  destruct (http env _ u) as [r2|]; [|reflexivity].
  destruct (status_ok r2); [|reflexivity].
  destruct (decide _); [reflexivity|].
  destruct (raw r2); reflexivity.
Qed.

End DownloadBranches.

(** ** The stages of [main] *)

Section Stages.

Variable env : Env.

(** [main], one stage after the other. *)
Lemma main_eq (s : State) :
  main env s =
  match probe_first_named env with
  | (Some cv, Some a) =>
      if Str.truthy cv && Str.truthy a then
        match get_latest_version env s with
        | (Ok (Some lv), s1) =>
            if Str.truthy lv then
              match compare_version cv lv with
              | Ok r =>
                  if r <? 0 then
                    match get_installer a env s1 with
                    | (Ok (Some path), s2) =>
                        if Str.truthy path then
                          match run_installer path env s2 with
                          | (Ok b, s3) => (Ok (if b then 1 else 5), s3)
                          | (Raise e, s3) => (Raise e, s3)
                          end
                        else (Ok 4, s2)
                    | (Ok None, s2) => (Ok 4, s2)
                    | (Raise e, s2) => (Raise e, s2)
                    end
                  else (Ok 0, s1)
              | Raise e => (Raise e, s1)
              end
            else (Ok 3, s1)
        | (Ok None, s1) => (Ok 3, s1)
        | (Raise e, s1) => (Raise e, s1)
        end
      else (Ok 2, s)
  | _ => (Ok 2, s)
  end.
Proof.
  unfold main, M_bind. rewrite get_current_version_eq.
  destruct (probe_first_named env) as [[cv|] [a|]]; try reflexivity.
  destruct (Str.truthy cv), (Str.truthy a); try reflexivity. cbn [negb orb andb].
  destruct (get_latest_version env s) as [[[lv|]|e] s1]; try reflexivity.
  destruct (Str.truthy lv); try reflexivity. cbn [negb].
  unfold lift. destruct (compare_version cv lv) as [r|e]; try reflexivity.
  destruct (r <? 0); try reflexivity.
  destruct (get_installer a env s1) as [[[path|]|e] s2]; try reflexivity.
  cbn [Py.truthy_opt]. destruct (Str.truthy path); reflexivity.
Qed.

Lemma installed_probe (s : State) (cv a : string) :
  installed env s cv a <->
  probe_first_named env = (Some cv, Some a)
  /\ Str.truthy cv = true /\ Str.truthy a = true.
Proof.
  unfold installed. rewrite get_current_version_eq. split.
  - intros (H & Hc & Ha). injection H as H. auto.
  - intros (H & Hc & Ha). rewrite H. auto.
Qed.

(** The feed client sends exactly one request, to the feed, and touches
    nothing else, whatever comes back. *)
Lemma get_latest_version_frame (s s1 : State) (r : result (option string)) :
  get_latest_version env s = (r, s1) ->
  s1 = mkState (files s) (net_log s ++ [GITHUB_RELEASES_URL]) (proc_log s).
Proof.
  unfold get_latest_version, try_except, M_bind, requests_get, raise_for_status,
    response_json, lift, raise, M_ret.
  destruct (http env _ _) as [res|]; cbn [dispatch is_RequestException];
    [|intros H; injection H as _ <-; reflexivity].
  destruct (status_ok res); cbn [dispatch is_RequestException lift];
    [|intros H; injection H as _ <-; reflexivity].
  destruct (body res) as [doc|]; cbn [dispatch is_RequestException lift];
    [|intros H; injection H as _ <-; reflexivity].
  destruct (Py.getitem doc "tag_name") as [tag|e].
  - destruct (Py.lstrip tag "v") as [v|e].
    + intros H; injection H as _ <-; reflexivity.
    + unfold raise, lift.
      destruct (is_RequestException e); [intros H; injection H as _ <-; reflexivity|].
      destruct (is_ValueError e); intros H; injection H as _ <-; reflexivity.
  - unfold raise, lift.
    destruct (is_RequestException e); [intros H; injection H as _ <-; reflexivity|].
    destruct (is_ValueError e); intros H; injection H as _ <-; reflexivity.
Qed.

(** The selector and downloader: one more request to the feed, then at
    most one download request, whose URL was selected from the answer to
    that second feed request; no process is started. *)
Lemma get_installer_frame (a : string) (s s2 : State) (r : result (option string)) :
  get_installer a env s = (r, s2) ->
  proc_log s2 = proc_log s
  /\ exists extra,
       net_log s2 = net_log s ++ GITHUB_RELEASES_URL :: extra
       /\ ((extra = [] /\ files s2 = files s)
           \/ exists u res doc assets items,
                extra = [u]
                /\ http env (length (net_log s)) GITHUB_RELEASES_URL = Some res
                /\ body res = Some doc
                /\ Py.getitem doc "assets" = Ok assets
                /\ Py.iter assets = Ok items
                /\ select_download_url a items = Ok (JStr u)).
Proof.
  rewrite get_installer_eq. cbn zeta. intros H.
  assert (H1 : forall r0, (r0, requested GITHUB_RELEASES_URL s) = (r, s2) ->
    proc_log s2 = proc_log s
    /\ exists extra,
         net_log s2 = net_log s ++ GITHUB_RELEASES_URL :: extra
         /\ ((extra = [] /\ files s2 = files s)
             \/ exists u res doc assets items,
                  extra = [u]
                  /\ http env (length (net_log s)) GITHUB_RELEASES_URL = Some res
                  /\ body res = Some doc
                  /\ Py.getitem doc "assets" = Ok assets
                  /\ Py.iter assets = Ok items
                  /\ select_download_url a items = Ok (JStr u))).
  { intros r0 [= _ <-]. split; [reflexivity|]. exists []. auto. }
  revert H.
  destruct (http env (length (net_log s)) GITHUB_RELEASES_URL) as [res|] eqn:Hres;
    [|apply H1].
  destruct (status_ok res); [|apply H1].
  destruct (body res) as [doc|] eqn:Hdoc; [|apply H1].
  destruct (Py.getitem doc "assets") as [assets|] eqn:Hassets; [|apply H1].
  destruct (Py.iter assets) as [items|] eqn:Hitems; [|apply H1].
  destruct (select_download_url a items) as [url|] eqn:Hsel; [|apply H1].
  destruct (Py.truthy url); [|apply H1].
  destruct url as [| | |u| |]; try apply H1.
  destruct (sendable env u); [|apply H1].
  assert (H2 : forall r0 fs,
    (r0, mkState fs (net_log (requested u (requested GITHUB_RELEASES_URL s)))
           (proc_log s)) = (r, s2) ->
    proc_log s2 = proc_log s
    /\ exists extra,
         net_log s2 = net_log s ++ GITHUB_RELEASES_URL :: extra
         /\ ((extra = [] /\ files s2 = files s)
             \/ exists u0 res0 doc0 assets0 items0,
                  extra = [u0]
                  /\ Some res = Some res0
                  /\ body res0 = Some doc0
                  /\ Py.getitem doc0 "assets" = Ok assets0
                  /\ Py.iter assets0 = Ok items0
                  /\ select_download_url a items0 = Ok (JStr u0))).
  { intros r0 fs [= _ <-]. split; [reflexivity|]. exists [u]. split.
    - cbn [requested net_log]. rewrite <- app_assoc. reflexivity.
    - right. exists u, res, doc, assets, items. repeat split; auto. }
  destruct (http env _ u) as [r2|]; [|apply (H2 _ (files s))].
  destruct (status_ok r2); [|apply (H2 _ (files s))].
  destruct (decide _); [apply (H2 _ (files s))|].
  destruct (raw r2); apply (H2 _ ({[installer_file a]} ∪ files s)).
Qed.

(** A path comes back only after a download, under the name built from the
    architecture, and the file is then present. *)
Lemma get_installer_path (a : string) (s s2 : State) (path : string) :
  get_installer a env s = (Ok (Some path), s2) ->
  path = ("npp_installer_" +:+ a +:+ ".exe")%string /\ path ∈ files s2.
Proof.
  rewrite get_installer_eq. cbn zeta.
  destruct (http env (length (net_log s)) GITHUB_RELEASES_URL) as [res|]; [|discriminate].
  destruct (status_ok res); [|discriminate].
  destruct (body res) as [doc|]; [|discriminate].
  destruct (Py.getitem doc "assets") as [assets|]; [|discriminate].
  destruct (Py.iter assets) as [items|]; [|discriminate].
  destruct (select_download_url a items) as [url|]; [|discriminate].
  destruct (Py.truthy url); [|discriminate].
  destruct url as [| | |u| |]; try discriminate.
  destruct (sendable env u); [|discriminate].
  destruct (http env _ u) as [r2|]; [|discriminate].
  destruct (status_ok r2); [|discriminate].
  destruct (decide _); [discriminate|].
  destruct (raw r2); try discriminate.
  intros [= <- <-]. split; [reflexivity|]. cbn [files].
  apply elem_of_union_l, elem_of_singleton. reflexivity.
Qed.

Lemma get_installer_path_truthy (a : string) (s s2 : State) (path : string) :
  get_installer a env s = (Ok (Some path), s2) -> Str.truthy path = true.
Proof. intros H. apply get_installer_path in H as [-> _]. reflexivity. Qed.

Lemma remove_if_exists_eq (path : string) (s : State) :
  remove_if_exists path env s =
  if decide (path ∈ files s) then
    if decide (path ∈ undeletable env) then (Raise PermissionError, s)
    else (Ok tt, mkState (files s ∖ {[path]}) (net_log s) (proc_log s))
  else (Ok tt, s).
Proof.
  unfold remove_if_exists, M_bind, path_exists, os_remove, M_ret.
  destruct (decide (path ∈ files s)) as [Hin|Hin].
  - rewrite bool_decide_eq_true_2 by exact Hin.
    destruct (decide (path ∈ files s)); [reflexivity | contradiction].
  - rewrite bool_decide_eq_false_2 by exact Hin. reflexivity.
Qed.

(** The installer runner, when it returns: the file is gone, the answer is
    [True] exactly when the process exited with status 0, one process was
    started and no request was sent. *)
Lemma run_installer_returns (path : string) (s s' : State) (b : bool) :
  run_installer path env s = (Ok b, s') ->
  (path ∉ files s')
  /\ (b = true <-> installer env [path; "/S"%string] = ExitZero)
  /\ proc_log s' = proc_log s ++ [[path; "/S"%string]]
  /\ net_log s' = net_log s.
Proof.
  unfold run_installer, try_except, M_bind, subprocess_run, M_ret.
  destruct (installer env [path; "/S"%string]) eqn:Hout;
    cbn [dispatch is_CalledProcessError is_OSError];
    unfold M_bind; rewrite !remove_if_exists_eq; cbn [files net_log proc_log];
    destruct (decide (path ∈ files s)) as [Hin|Hin];
    try destruct (decide (path ∈ undeletable env)) as [Hud|Hud];
    cbn [dispatch is_CalledProcessError is_OSError];
    unfold M_bind; rewrite ?remove_if_exists_eq; cbn [files net_log proc_log];
    repeat match goal with
      | |- context [decide (path ∈ files s)] =>
          destruct (decide (path ∈ files s)); [|contradiction]
      | |- context [decide (path ∈ undeletable env)] =>
          destruct (decide (path ∈ undeletable env)); [|contradiction]
      end;
    try discriminate;
    intros [= Hb Hs]; subst b s'; cbn [files net_log proc_log];
    (split;
     [first [ exact Hin
            | intros [_ Hn]%elem_of_difference; apply Hn, elem_of_singleton; reflexivity ]|]);
    (split; [split; congruence|]); auto.
Qed.

(** It does return whenever the file may be deleted. *)
Lemma run_installer_total (path : string) (s : State) :
  path ∉ undeletable env ->
  exists b s', run_installer path env s = (Ok b, s').
Proof.
  intros Hud.
  unfold run_installer, try_except, M_bind, subprocess_run, M_ret.
  destruct (installer env [path; "/S"%string]);
    cbn [dispatch is_CalledProcessError is_OSError];
    unfold M_bind; rewrite !remove_if_exists_eq; cbn [files net_log proc_log];
    destruct (decide (path ∈ files s)) as [Hin|Hin];
    try (destruct (decide (path ∈ undeletable env)) as [Hud'|Hud']; [contradiction|]);
    eauto.
Qed.

End Stages.

(** ** The orchestrator *)

Section Orchestrator.

Variable env : Env.

Lemma compare_version_range (a b : string) (r : Z) :
  compare_version a b = Ok r -> r = -1 \/ r = 0 \/ r = 1.
Proof.
  unfold compare_version.
  destruct (Version.parse a); [|discriminate].
  destruct (Version.parse b); [|discriminate].
  destruct (Version.lt _ _); [intros [= <-]; auto|].
  destruct (Version.gt _ _); intros [= <-]; auto.
Qed.

(** Every completed run has one of the six outcomes, and returns its code. *)
Lemma main_returns_outcome (s s' : State) (c : Z) :
  main env s = (Ok c, s') ->
  exists o, run_outcome env s o s' /\ c = exit_code o.
Proof.
  rewrite main_eq.
  destruct (probe_first_named env) as [v a] eqn:Hp.
  assert (Hnf : Py.truthy_opt v && Py.truthy_opt a = false ->
                run_outcome env s NOT_FOUND s).
  { intros Hf. apply (Run_not_found env s v a); [|exact Hf].
    rewrite get_current_version_eq, Hp. reflexivity. }
  destruct v as [cv|]; [|intros [= <- <-]; exists NOT_FOUND; auto].
  destruct a as [a|];
    [|intros [= <- <-]; exists NOT_FOUND; split; [apply Hnf, andb_false_r | reflexivity]].
  destruct (Str.truthy cv) eqn:Hcv; cbn [andb];
    [|intros [= <- <-]; exists NOT_FOUND; split;
      [apply Hnf; cbn; rewrite Hcv; reflexivity | reflexivity]].
  destruct (Str.truthy a) eqn:Ha;
    [|intros [= <- <-]; exists NOT_FOUND; split;
      [apply Hnf; cbn; rewrite Hcv, Ha; reflexivity | reflexivity]].
  assert (Hi : installed env s cv a) by (apply installed_probe; auto).
  destruct (get_latest_version env s) as [[[lv|]|e] s1] eqn:Hl; [| |discriminate].
  2:{ intros [= <- <-]. exists FETCH_FAILED. split; [|reflexivity].
      apply (Run_fetch_failed env s cv a None s1); auto. }
  destruct (Str.truthy lv) eqn:Hlv.
  2:{ intros [= <- <-]. exists FETCH_FAILED. split; [|reflexivity].
      apply (Run_fetch_failed env s cv a (Some lv) s1); auto. }
  assert (Hf : fetched env s lv s1) by (split; assumption).
  destruct (compare_version cv lv) as [r|e] eqn:Hc; [|discriminate].
  destruct (r <? 0) eqn:Hr.
  2:{ intros [= <- <-]. exists UP_TO_DATE. split; [|reflexivity].
      apply (Run_up_to_date env s cv a lv s1 r); auto. apply Z.ltb_ge, Hr. }
  assert (Hd : reaches_download env s a s1).
  { exists cv, lv, r. repeat split; try apply Hi; try apply Hf; auto.
    apply Z.ltb_lt, Hr. }
  destruct (get_installer a env s1) as [[[path|]|e] s2] eqn:Hg; [| |discriminate].
  2:{ intros [= <- <-]. exists DOWNLOAD_FAILED. split; [|reflexivity].
      apply (Run_download_failed env s a s1 s2); auto. }
  rewrite (get_installer_path_truthy env _ _ _ _ Hg).
  assert (Hri : reaches_install env s path s2).
  { exists a, s1. repeat split; auto. apply (get_installer_path_truthy env _ _ _ _ Hg). }
  destruct (run_installer path env s2) as [[[|]|e] s3] eqn:Hrun; [| |discriminate].
  - intros [= <- <-]. exists UPDATED. split; [|reflexivity].
    apply (Run_updated env s path s2 s3); auto.
  - intros [= <- <-]. exists INSTALL_FAILED. split; [|reflexivity].
    apply (Run_install_failed env s path s2 s3); auto.
Qed.

Lemma main_after_download_stage (s s1 : State) (a : string) :
  reaches_download env s a s1 ->
  main env s =
  match get_installer a env s1 with
  | (Ok (Some path), s2) =>
      match run_installer path env s2 with
      | (Ok b, s3) => (Ok (if b then 1 else 5), s3)
      | (Raise e, s3) => (Raise e, s3)
      end
  | (Ok None, s2) => (Ok 4, s2)
  | (Raise e, s2) => (Raise e, s2)
  end.
Proof.
  intros (cv & lv & r & Hi & [Hl Hlv] & Hc & Hr).
  apply installed_probe in Hi as (Hp & Hcv & Ha).
  rewrite main_eq, Hp, Hcv, Ha, Hl, Hlv, Hc. cbn [andb].
  rewrite (proj2 (Z.ltb_lt r 0) Hr).
  destruct (get_installer a env s1) as [[[path|]|e] s2] eqn:Hg; try reflexivity.
  rewrite (get_installer_path_truthy env _ _ _ _ Hg). reflexivity.
Qed.

Lemma main_after_install_stage (s s2 : State) (path : string) :
  reaches_install env s path s2 ->
  main env s =
  match run_installer path env s2 with
  | (Ok b, s3) => (Ok (if b then 1 else 5), s3)
  | (Raise e, s3) => (Raise e, s3)
  end.
Proof.
  intros (a & s1 & Hd & Hg & _).
  rewrite (main_after_download_stage _ _ _ Hd), Hg. reflexivity.
Qed.

(** Each outcome is returned as its code. *)
Lemma main_outcome_code (s s' : State) (o : Outcome) :
  run_outcome env s o s' -> main env s = (Ok (exit_code o), s').
Proof.
  intros H. destruct H as
    [v a Hp Hf | cv a lv s1 Hi Hl Hf | cv a lv s1 r Hi [Hl Hlv] Hc Hr
    | a s1 s2 Hd Hg | path s2 s3 Hri Hrun | path s2 s3 Hri Hrun].
  - rewrite main_eq. rewrite get_current_version_eq in Hp. injection Hp as ->.
    destruct v as [cv|], a as [a|]; try reflexivity.
    cbn [Py.truthy_opt] in Hf. rewrite Hf. reflexivity.
  - apply installed_probe in Hi as (Hp & Hcv & Ha).
    rewrite main_eq, Hp, Hcv, Ha, Hl. cbn [andb].
    destruct lv as [lv|]; [|reflexivity].
    cbn [Py.truthy_opt] in Hf. rewrite Hf. reflexivity.
  - apply installed_probe in Hi as (Hp & Hcv & Ha).
    rewrite main_eq, Hp, Hcv, Ha, Hl, Hlv, Hc. cbn [andb].
    rewrite (proj2 (Z.ltb_ge r 0) Hr). reflexivity.
  - rewrite (main_after_download_stage _ _ _ Hd), Hg. reflexivity.
  - rewrite (main_after_install_stage _ _ _ Hri), Hrun. reflexivity.
  - rewrite (main_after_install_stage _ _ _ Hri), Hrun. reflexivity.
Qed.

(** What each outcome means for the installer process: "updated" and
    "installation failed" follow one start of the installer, which exited
    with status 0 in the first case only; no other outcome starts a process. *)
Lemma run_outcome_process (s s' : State) (o : Outcome) :
  run_outcome env s o s' ->
  match o with
  | UPDATED =>
      exists path, proc_log s' = proc_log s ++ [[path; "/S"%string]]
                   /\ installer env [path; "/S"%string] = ExitZero
  | INSTALL_FAILED =>
      exists path, proc_log s' = proc_log s ++ [[path; "/S"%string]]
                   /\ installer env [path; "/S"%string] <> ExitZero
  | _ => proc_log s' = proc_log s
  end.
Proof.
  assert (Hdl : forall a s1, reaches_download env s a s1 -> proc_log s1 = proc_log s).
  { intros a s1 (cv & lv & r & _ & [Hl _] & _).
    apply get_latest_version_frame in Hl. subst s1. reflexivity. }
  assert (Hin : forall path s2, reaches_install env s path s2 -> proc_log s2 = proc_log s).
  { intros path s2 (a & s1 & Hd & Hg & _).
    apply get_installer_frame in Hg as [Hp _]. rewrite Hp. apply (Hdl a), Hd. }
  intros H. destruct H as
    [v a Hp Hf | cv a lv s1 Hi Hl Hf | cv a lv s1 r Hi [Hl Hlv] Hc Hr
    | a s1 s2 Hd Hg | path s2 s3 Hri Hrun | path s2 s3 Hri Hrun].
  - reflexivity.
  - apply get_latest_version_frame in Hl. subst s1. reflexivity.
  - apply get_latest_version_frame in Hl. subst s1. reflexivity.
  - apply get_installer_frame in Hg as [Hp _]. rewrite Hp. apply (Hdl a), Hd.
  - apply run_installer_returns in Hrun as (_ & Hb & Hp & _).
    exists path. rewrite Hp, (Hin _ _ Hri). split; [reflexivity|].
    intros Hz. apply Hb in Hz. discriminate.
  - apply run_installer_returns in Hrun as (_ & Hb & Hp & _).
    exists path. rewrite Hp, (Hin _ _ Hri). split; [reflexivity|].
    apply Hb. reflexivity.
Qed.

End Orchestrator.

(** The exit codes of the runs in which [main] returns.  Such a run
    returns the code of the spec's table for its outcome, and only such a
    code: 0 up to date, 1 updated,
    2 not installed, 3 latest version not retrieved, 4 download failed (no
    matching asset included), 5 installation failed.  Code 1 is returned
    only after the installer exited with status 0, code 5 only after it was
    started and did not, and the other codes without starting it. *)
Theorem main_exit_code_contract (env : Env) (s s' : State) (c : Z) :
  (main env s = (Ok c, s') <-> exists o, run_outcome env s o s' /\ c = exit_code o)
  /\ (main env s = (Ok c, s') -> 0 <= c <= 5)
  /\ (main env s = (Ok c, s') ->
      (c = 1 -> exists path, proc_log s' = proc_log s ++ [[path; "/S"%string]]
                             /\ installer env [path; "/S"%string] = ExitZero)
      /\ (c = 5 -> exists path, proc_log s' = proc_log s ++ [[path; "/S"%string]]
                                /\ installer env [path; "/S"%string] <> ExitZero)
      /\ (c <> 1 -> c <> 5 -> proc_log s' = proc_log s)).
Proof.
  assert (H1 : main env s = (Ok c, s') ->
               exists o, run_outcome env s o s' /\ c = exit_code o)
    by apply main_returns_outcome.
  split; [split; [exact H1|] | split].
  - intros (o & Ho & ->). apply main_outcome_code, Ho.
  - intros H. destruct (H1 H) as (o & _ & ->). destruct o; simpl; lia.
  - intros H. destruct (H1 H) as (o & Ho & ->).
    pose proof (run_outcome_process env _ _ _ Ho) as Hp.
    destruct o; cbn [exit_code]; repeat split; intros; try lia; try exact Hp.
Qed.

Lemma main_exit_code_contract_witness :
  exists o s',
    run_outcome Sample.env_update Sample.start o s'
    /\ exit_code o = 1
    /\ main Sample.env_update Sample.start = (Ok 1, s').
Proof.
  set (s' := snd (main Sample.env_update Sample.start)).
  assert (H : main Sample.env_update Sample.start = (Ok 1, s'))
    by (vm_compute; reflexivity).
  destruct (proj1 (proj1 (main_exit_code_contract Sample.env_update Sample.start s' 1)) H)
    as (o & Ho & Hc).
  exists o, s'. split; [exact Ho|]. split; [symmetry; exact Hc | exact H].
Defined.

(** C1 fails on the runs that end in an exception, which the interpreter
    turns into exit status 1.  With a feed answer that has no [tag_name] the
    process exits with 1, the code of "update installed", although no
    installer was started and the run has none of the six outcomes.  With
    an installer that fails and a file that [os.remove] cannot delete, the
    process exits with 1 where the table says 5. *)
Theorem exit_status_breaks_contract :
  exit_status Sample.env_no_tag Sample.start = 1
  /\ proc_log (snd (main Sample.env_no_tag Sample.start)) = []
  /\ (forall o s', ~ run_outcome Sample.env_no_tag Sample.start o s')
  /\ exit_status Sample.env_locked Sample.start = 1
  /\ proc_log (snd (main Sample.env_locked Sample.start))
     = [["npp_installer_x64.exe"; "/S"]%string]
  /\ installer Sample.env_locked ["npp_installer_x64.exe"; "/S"]%string = ExitNonZero
  /\ (forall o s', ~ run_outcome Sample.env_locked Sample.start o s').
Proof.
  assert (Hno : forall env, (exists e, fst (main env Sample.start) = Raise e) ->
                  forall o s', ~ run_outcome env Sample.start o s').
  { intros env [e He] o s' H. apply main_outcome_code in H. rewrite H in He. discriminate. }
  split; [vm_compute; reflexivity|]. split; [vm_compute; reflexivity|].
  split; [apply Hno; eexists; vm_compute; reflexivity|].
  split; [vm_compute; reflexivity|]. split; [vm_compute; reflexivity|].
  split; [reflexivity|].
  apply Hno. eexists. vm_compute. reflexivity.
Qed.

(** C2 fails on two inputs the script can receive: a feed answer without
    the [tag_name] field raises [KeyError] inside [get_latest_version],
    whose handlers name only [RequestException] and [ValueError]; a tag that
    is not a version raises [InvalidVersion] inside [compare_version], which
    [main] calls outside any [try].  Both leave [main] as exceptions, and the
    process then exits with status 1, the code of "update installed",
    although no installer was started. *)
Theorem main_lets_exceptions_escape :
  main Sample.env_no_tag Sample.start
    = (Raise (KeyError "tag_name"), mkState ∅ [GITHUB_RELEASES_URL] [])
  /\ main Sample.env_bad_tag Sample.start
    = (Raise (InvalidVersion "nightly"), mkState ∅ [GITHUB_RELEASES_URL] [])
  /\ is_RequestException (KeyError "tag_name") = false
  /\ is_ValueError (KeyError "tag_name") = false
  /\ exit_status Sample.env_no_tag Sample.start = 1
  /\ exit_status Sample.env_bad_tag Sample.start = 1.
Proof. repeat split; vm_compute; reflexivity. Qed.

Section Frame.

Variable env : Env.
Variable fs : gset string.

(** Whatever [main] leaves behind beyond the single version request was
    preceded by a comparison that said "less". *)
Lemma main_effects_need_less (r : result Z) (s' : State) :
  main env (initial fs) = (r, s') ->
  proc_log s' <> [] \/ (2 <= length (net_log s'))%nat \/ files s' <> fs ->
  exists cv a lv s1,
    installed env (initial fs) cv a /\ fetched env (initial fs) lv s1
    /\ compare_version cv lv = Ok (-1).
Proof.
  assert (Hquiet0 : proc_log (initial fs) <> []
                    \/ (2 <= length (net_log (initial fs)))%nat
                    \/ files (initial fs) <> fs -> False).
  { cbn. intros [H|[H|H]]; [congruence | lia | congruence]. }
  rewrite main_eq.
  destruct (probe_first_named env) as [[cv|] [a|]] eqn:Hp;
    try (intros [= <- <-] H; destruct (Hquiet0 H)).
  destruct (Str.truthy cv) eqn:Hcv; cbn [andb];
    [|intros [= <- <-] H; destruct (Hquiet0 H)].
  destruct (Str.truthy a) eqn:Ha;
    [|intros [= <- <-] H; destruct (Hquiet0 H)].
  destruct (get_latest_version env (initial fs)) as [rl s1] eqn:Hl.
  pose proof (get_latest_version_frame env _ _ _ Hl) as Hs1. cbn in Hs1.
  assert (Hquiet1 : proc_log s1 <> [] \/ (2 <= length (net_log s1))%nat
                    \/ files s1 <> fs -> False).
  { subst s1. cbn. intros [H|[H|H]]; [congruence | lia | congruence]. }
  destruct rl as [[lv|]|e]; try (intros [= <- <-] H; destruct (Hquiet1 H)).
  destruct (Str.truthy lv) eqn:Hlv; [|intros [= <- <-] H; destruct (Hquiet1 H)].
  destruct (compare_version cv lv) as [c|e] eqn:Hc;
    [|intros [= <- <-] H; destruct (Hquiet1 H)].
  destruct (c <? 0) eqn:Hneg; [|intros [= <- <-] H; destruct (Hquiet1 H)].
  intros _ _. exists cv, a, lv, s1.
  split; [apply installed_probe; auto|]. split; [split; assumption|].
  apply Z.ltb_lt in Hneg.
  destruct (compare_version_range _ _ _ Hc) as [ -> | [ -> | -> ] ]; [exact Hc | lia | lia].
Qed.

(** An equal or greater installed version ends the run after the version
    request, with code 0. *)
Lemma main_up_to_date (cv a lv : string) (s1 : State) (r : Z) :
  installed env (initial fs) cv a -> fetched env (initial fs) lv s1 ->
  compare_version cv lv = Ok r -> 0 <= r ->
  main env (initial fs) = (Ok 0, s1)
  /\ s1 = mkState fs [GITHUB_RELEASES_URL] [].
Proof.
  intros Hi Hf Hc Hr. split.
  - apply (main_outcome_code env _ _ UP_TO_DATE).
    apply (Run_up_to_date env _ cv a lv s1 r); assumption.
  - destruct Hf as [Hl _]. apply get_latest_version_frame in Hl. exact Hl.
Qed.

End Frame.

(** C4.  From a fresh start, when the installed version compares equal to
    or greater than the latest one, [main] returns 0 having sent the version
    request and nothing else: no second feed request, no download, no process,
    no file.  Conversely a run that started a process, sent a second request
    or changed the files compared the versions as "less" (-1) first. *)
Theorem no_update_unless_less (env : Env) (fs : gset string) :
  (forall cv a lv s1 r,
      installed env (initial fs) cv a -> fetched env (initial fs) lv s1 ->
      compare_version cv lv = Ok r -> 0 <= r ->
      main env (initial fs) = (Ok 0, s1)
      /\ s1 = mkState fs [GITHUB_RELEASES_URL] [])
  /\ (forall r s',
        main env (initial fs) = (r, s') ->
        proc_log s' <> [] \/ (2 <= length (net_log s'))%nat \/ files s' <> fs ->
        exists cv a lv s1,
          installed env (initial fs) cv a /\ fetched env (initial fs) lv s1
          /\ compare_version cv lv = Ok (-1)).
Proof.
  split.
  - intros cv a lv s1 r. apply main_up_to_date.
  - intros r s'. apply main_effects_need_less.
Qed.

Lemma no_update_unless_less_witness :
  main Sample.env_current Sample.start = (Ok 0, mkState ∅ [GITHUB_RELEASES_URL] [])
  /\ exists cv lv, compare_version cv lv = Ok (-1)
       /\ fst (get_current_version Sample.env_update Sample.start)
          = Ok (Some cv, Some "x64"%string).
Proof.
  split.
  - assert (Hi : installed Sample.env_current (initial ∅) "8.6" "x64")
      by (repeat split; vm_compute; reflexivity).
    assert (Hf : fetched Sample.env_current (initial ∅) "8.6"
                   (mkState ∅ [GITHUB_RELEASES_URL] []))
      by (split; vm_compute; reflexivity).
    assert (Hc : compare_version "8.6" "8.6" = Ok 0) by reflexivity.
    exact (proj1 (proj1 (no_update_unless_less Sample.env_current ∅)
                    _ _ _ _ 0 Hi Hf Hc (Z.le_refl 0))).
  - destruct (proj2 (no_update_unless_less Sample.env_update ∅)
                (Ok 1) (snd (main Sample.env_update Sample.start)))
      as (cv & a & lv & s1 & Hi & _ & Hc).
    + vm_compute. reflexivity.
    + left. vm_compute. discriminate.
    + exists cv, lv. split; [exact Hc|].
      destruct Hi as (Hg & _). unfold Sample.start. rewrite Hg. cbn [fst].
      assert (Ha : a = "x64"%string) by (vm_compute in Hg; congruence).
      rewrite Ha. reflexivity.
Defined.

(** C7.  When the probe answers NotInstalled (no version or no
    architecture), [main] returns 2 in the very state it started from: no
    request was sent, no process started, no file touched. *)
Theorem not_installed_exits_2_without_network
    (env : Env) (s s1 : State) (v a : option string) :
  get_current_version env s = (Ok (v, a), s1) ->
  Py.truthy_opt v && Py.truthy_opt a = false ->
  main env s = (Ok 2, s) /\ net_log (snd (main env s)) = net_log s.
Proof.
  intros Hp Hf.
  assert (Hs : s1 = s) by (rewrite get_current_version_eq in Hp; congruence).
  subst s1.
  assert (Hm : main env s = (Ok 2, s)).
  { apply (main_outcome_code env s s NOT_FOUND).
    apply (Run_not_found env s v a); assumption. }
  split; [exact Hm | rewrite Hm; reflexivity].
Qed.

Lemma not_installed_exits_2_without_network_witness :
  main Sample.env_not_installed Sample.start = (Ok 2, Sample.start)
  /\ net_log (snd (main Sample.env_not_installed Sample.start)) = [].
Proof.
  apply (not_installed_exits_2_without_network
           Sample.env_not_installed Sample.start Sample.start None None).
  - vm_compute. reflexivity.
  - reflexivity.
Defined.

(** ** The artifact selector *)

Section Selector.

Lemma getitem_name (d : AssetDescriptor) :
  Py.getitem (asset_json d) "name" = Ok (JStr (name d)).
Proof. reflexivity. Qed.

Lemma getitem_download_url (d : AssetDescriptor) :
  Py.getitem (asset_json d) "browser_download_url" = Ok (JStr (downloadUrl d)).
Proof. reflexivity. Qed.

Lemma asset_matches_typed (arch : Architecture) (d : AssetDescriptor) :
  asset_matches (arch_name arch) (asset_json d)
  = Ok (Str.endswith (name d) (eligible_suffix arch)).
Proof.
  unfold asset_matches. rewrite getitem_name. unfold Py.endswith.
  destruct arch; unfold arch_name, eligible_suffix.
  - change (String.eqb "x86" "x64") with false. rewrite andb_false_r.
    change (String.eqb "x86" "x86") with true. rewrite andb_true_r. reflexivity.
  - change (String.eqb "x64" "x64") with true. rewrite andb_true_r.
    change ("x64" +:+ ".exe")%string with "x64.exe"%string.
    destruct (Str.endswith (name d) "x64.exe"); [reflexivity|].
    change (String.eqb "x64" "x86") with false. rewrite andb_false_r. reflexivity.
Qed.

(** The loop of the script picks what [select] picks. *)
Lemma select_download_url_typed (arch : Architecture) (assets : list AssetDescriptor) :
  select_download_url (arch_name arch) (map asset_json assets)
  = Ok match select assets arch with
       | Some d => JStr (downloadUrl d)
       | None => JNull
       end.
Proof.
  unfold select. induction assets as [|d assets IH]; [reflexivity|].
  cbn [map select_download_url find]. rewrite asset_matches_typed.
  destruct (Str.endswith (name d) (eligible_suffix arch));
    [apply getitem_download_url | exact IH].
Qed.

(** [find] returns the first element that satisfies the test. *)
Lemma find_first {A} (f : A -> bool) (l : list A) (x : A) :
  find f l = Some x <->
  exists before after,
    l = before ++ x :: after /\ f x = true /\ Forall (fun y => f y = false) before.
Proof.
  induction l as [|y l IH]; cbn [find].
  - split; [discriminate|]. intros (before & after & H & _). destruct before; discriminate.
  - destruct (f y) eqn:Hy.
    + split.
      * intros [= ->]. exists [], l. auto.
      * intros (before & after & H & Hx & Hb). destruct before as [|z before].
        -- injection H as -> _. reflexivity.
        -- injection H as -> _. inversion Hb; congruence.
    + rewrite IH. split.
      * intros (before & after & -> & Hx & Hb). exists (y :: before), after. auto.
      * intros (before & after & H & Hx & Hb). destruct before as [|z before].
        -- injection H as -> _. congruence.
        -- injection H as -> ->. inversion Hb; subst. eauto.
Qed.

Lemma find_none_all {A} (f : A -> bool) (l : list A) :
  find f l = None <-> Forall (fun y => f y = false) l.
Proof.
  induction l as [|y l IH]; cbn [find].
  - split; auto.
  - destruct (f y) eqn:Hy.
    + split; [discriminate|]. inversion 1; congruence.
    + rewrite IH. split; [auto|]. inversion 1; assumption.
Qed.

(** With no eligible asset in the answer to its feed request,
    [get_installer] returns [None] after that one request. *)
Lemma get_installer_no_match (env : Env) (s : State) (arch : Architecture)
    (res : response) (doc : json) (assets : list AssetDescriptor) :
  http env (length (net_log s)) GITHUB_RELEASES_URL = Some res ->
  status_ok res = true ->
  body res = Some doc ->
  Py.getitem doc "assets" = Ok (JArr (map asset_json assets)) ->
  select assets arch = None ->
  get_installer (arch_name arch) env s
  = (Ok None, mkState (files s) (net_log s ++ [GITHUB_RELEASES_URL]) (proc_log s)).
Proof.
  intros Hres Hst Hdoc Hassets Hnone.
  rewrite get_installer_eq, Hres, Hst, Hdoc, Hassets. cbn [Py.iter].
  rewrite select_download_url_typed, Hnone. reflexivity.
Qed.

End Selector.

(** C5.  On a list of asset descriptors the loop of [get_installer] ends
    with the download URL of the asset [select] returns, and with [None]
    when [select] returns none; [select] returns the first asset, in list
    order, whose name ends with "x64.exe" for x64 and with "Installer.exe"
    for x86; and when no asset is eligible [get_installer] returns [None]
    without raising and [main] returns 4. *)
Theorem selector_first_match_wins (arch : Architecture) (assets : list AssetDescriptor) :
  select_download_url (arch_name arch) (map asset_json assets)
    = Ok match select assets arch with
         | Some d => JStr (downloadUrl d)
         | None => JNull
         end
  /\ (forall d,
        select assets arch = Some d <->
        exists before after,
          assets = before ++ d :: after
          /\ has_suffix (name d) (eligible_suffix arch)
          /\ Forall (fun d' => ~ has_suffix (name d') (eligible_suffix arch)) before)
  /\ (select assets arch = None <->
      Forall (fun d' => ~ has_suffix (name d') (eligible_suffix arch)) assets)
  /\ (forall env s s1 res doc,
        reaches_download env s (arch_name arch) s1 ->
        http env (length (net_log s1)) GITHUB_RELEASES_URL = Some res ->
        status_ok res = true ->
        body res = Some doc ->
        Py.getitem doc "assets" = Ok (JArr (map asset_json assets)) ->
        select assets arch = None ->
        exists s2,
          get_installer (arch_name arch) env s1 = (Ok None, s2)
          /\ main env s = (Ok 4, s2)).
Proof.
  assert (Hno : forall l : list AssetDescriptor,
             Forall (fun d' => Str.endswith (name d') (eligible_suffix arch) = false) l
             <-> Forall (fun d' => ~ has_suffix (name d') (eligible_suffix arch)) l).
  { intros l. apply Forall_iff. intros d'. rewrite <- endswith_spec.
    destruct (Str.endswith _ _); split; congruence. }
  split; [apply select_download_url_typed|].
  split; [|split].
  - intros d. unfold select. rewrite find_first. split.
    + intros (before & after & H & Hd & Hb). exists before, after.
      split; [exact H|]. split; [apply endswith_spec, Hd | apply Hno, Hb].
    + intros (before & after & H & Hd & Hb). exists before, after.
      split; [exact H|]. split; [apply endswith_spec, Hd | apply Hno, Hb].
  - unfold select. rewrite find_none_all. apply Hno.
  - intros env s s1 res doc Hd Hres Hst Hdoc Hassets Hnone.
    pose proof (get_installer_no_match env s1 arch res doc assets
                  Hres Hst Hdoc Hassets Hnone) as Hg.
    eexists. split; [exact Hg|].
    rewrite (main_after_download_stage env _ _ _ Hd), Hg. reflexivity.
Qed.

Lemma selector_first_match_wins_witness :
  select_download_url "x64"
    [Sample.asset "npp.8.6.3.Installer.exe" "https://example.org/a";
     Sample.asset "npp.8.6.3.Installer.x64.exe" "https://example.org/b";
     Sample.asset "npp.8.6.3.Installer.arm64.x64.exe" "https://example.org/c"]
  = Ok (JStr "https://example.org/b")
  /\ main Sample.env_no_asset Sample.start
     = (Ok 4, mkState ∅ [GITHUB_RELEASES_URL; GITHUB_RELEASES_URL] []).
Proof.
  split.
  - exact (proj1 (selector_first_match_wins x64
             [mkAsset "npp.8.6.3.Installer.exe" "https://example.org/a";
              mkAsset "npp.8.6.3.Installer.x64.exe" "https://example.org/b";
              mkAsset "npp.8.6.3.Installer.arm64.x64.exe" "https://example.org/c"])).
  - pose (s1 := mkState ∅ [GITHUB_RELEASES_URL] []).
    assert (Hd : reaches_download Sample.env_no_asset Sample.start "x64" s1).
    { exists "4.5.1"%string, "8.6.3"%string, (-1).
      repeat split; try (vm_compute; reflexivity). }
    destruct (proj2 (proj2 (proj2 (selector_first_match_wins x64
                 [mkAsset "unrelated-file.zip" "https://example.org/z"])))
                Sample.env_no_asset Sample.start s1
                (mkResponse true (Some (Sample.release "v8.6.3"
                   [Sample.asset "unrelated-file.zip" "https://example.org/z"])) Copied)
                (Sample.release "v8.6.3"
                   [Sample.asset "unrelated-file.zip" "https://example.org/z"])
                Hd eq_refl eq_refl eq_refl eq_refl eq_refl)
      as (s2 & Hg & Hm).
    rewrite Hm. f_equal.
    assert (E : s2 = snd (get_installer "x64" Sample.env_no_asset s1))
      by (cbn [arch_name] in Hg; rewrite Hg; reflexivity).
    rewrite E. vm_compute. reflexivity.
Defined.

(** ** The installer runner and the download stage *)

Section Install.

Variable env : Env.

(** Starting the installer and deleting the file send no request,
    however the call ends. *)
Lemma run_installer_net_log (path : string) (s s' : State) (r : result bool) :
  run_installer path env s = (r, s') -> net_log s' = net_log s.
Proof.
  unfold run_installer, try_except, M_bind, subprocess_run, M_ret.
  destruct (installer env [path; "/S"%string]);
    cbn [dispatch is_CalledProcessError is_OSError];
    unfold M_bind; rewrite !remove_if_exists_eq; cbn [files net_log proc_log];
    destruct (decide (path ∈ files s)) as [Hin|Hin];
    try destruct (decide (path ∈ undeletable env)) as [Hud|Hud];
    cbn [dispatch is_CalledProcessError is_OSError];
    unfold M_bind; rewrite ?remove_if_exists_eq; cbn [files net_log proc_log];
    repeat match goal with
      | |- context [decide (path ∈ files s)] =>
          destruct (decide (path ∈ files s)); [|contradiction]
      | |- context [decide (path ∈ undeletable env)] =>
          destruct (decide (path ∈ undeletable env)); [|contradiction]
      end;
    intros [= Hr Hs]; subst s'; reflexivity.
Qed.

Lemma reaches_download_log (fs : gset string) (a : string) (s1 : State) :
  reaches_download env (initial fs) a s1 ->
  s1 = mkState fs [GITHUB_RELEASES_URL] [].
Proof.
  intros (cv & lv & r & _ & [Hl _] & _).
  apply get_latest_version_frame in Hl. exact Hl.
Qed.

Lemma main_net_log_after_download (fs : gset string) (a : string) (s1 s2 s' : State)
    (r : result (option string)) (r' : result Z) :
  reaches_download env (initial fs) a s1 ->
  get_installer a env s1 = (r, s2) ->
  main env (initial fs) = (r', s') ->
  net_log s' = net_log s2.
Proof.
  intros Hd Hg. rewrite (main_after_download_stage env _ _ _ Hd), Hg.
  destruct r as [[path|]|e]; try (intros [= _ <-]; reflexivity).
  destruct (run_installer path env s2) as [rb s3] eqn:Hrun.
  apply run_installer_net_log in Hrun.
  destruct rb; intros [= _ <-]; exact Hrun.
Qed.

End Install.

(** C6.  Whatever the installer process does (exit 0, non-zero exit, launch
    failure), once [run_installer] returns the file at [path] is absent, the
    value returned is [True] exactly for exit 0, and a run of [main] that
    handed it [path] ends with code 1 for [True] and 5 for [False].
    [run_installer] does return whenever the file system lets the file be
    deleted. *)
Theorem run_installer_removes_file (env : Env) (s : State) (path : string) :
  (forall b s',
      run_installer path env s = (Ok b, s') ->
      (path ∉ files s')
      /\ (b = true <-> installer env [path; "/S"%string] = ExitZero)
      /\ forall s0, reaches_install env s0 path s ->
                    main env s0 = (Ok (if b then 1 else 5), s'))
  /\ (path ∉ undeletable env -> exists b s', run_installer path env s = (Ok b, s')).
Proof.
  split.
  - intros b s' Hrun.
    destruct (run_installer_returns env _ _ _ _ Hrun) as (Hgone & Hb & _).
    split; [exact Hgone|]. split; [exact Hb|].
    intros s0 Hri. rewrite (main_after_install_stage env _ _ _ Hri), Hrun. reflexivity.
  - apply run_installer_total.
Qed.

Lemma run_installer_removes_file_witness :
  exists s',
    run_installer "npp_installer_x64.exe" Sample.env_install_fails
      (mkState {["npp_installer_x64.exe"%string]} [] []) = (Ok false, s')
    /\ ("npp_installer_x64.exe"%string ∉ files s').
Proof.
  pose (s := mkState {["npp_installer_x64.exe"%string]} [] []).
  destruct (proj2 (run_installer_removes_file Sample.env_install_fails s
                     "npp_installer_x64.exe")) as (b & s' & Hrun).
  - unfold Sample.env_install_fails, Sample.env_of. cbn [undeletable].
    apply not_elem_of_empty.
  - destruct (proj1 (run_installer_removes_file Sample.env_install_fails s
                       "npp_installer_x64.exe") b s' Hrun) as (Hgone & Hb & _).
    exists s'. split; [|exact Hgone].
    destruct b; [|exact Hrun].
    destruct Hb as [Hb _]. specialize (Hb eq_refl). vm_compute in Hb. discriminate.
Defined.

(** C9.  A run that reaches the download stage has sent one request to the
    feed; [get_installer] then sends a second request to the same endpoint,
    and any download request that follows asks for the URL selected from
    the answer to that second request (request number 1), not from the
    answer whose tag was compared (request number 0).  The run sends
    nothing after that. *)
Theorem feed_requested_twice (env : Env) (fs : gset string) (a : string)
    (s1 s2 : State) (r : result (option string)) :
  reaches_download env (initial fs) a s1 ->
  get_installer a env s1 = (r, s2) ->
  net_log s1 = [GITHUB_RELEASES_URL]
  /\ (exists extra,
        net_log s2 = [GITHUB_RELEASES_URL; GITHUB_RELEASES_URL] ++ extra
        /\ (extra = []
            \/ exists u res doc assets items,
                 extra = [u]
                 /\ http env 1 GITHUB_RELEASES_URL = Some res
                 /\ body res = Some doc
                 /\ Py.getitem doc "assets" = Ok assets
                 /\ Py.iter assets = Ok items
                 /\ select_download_url a items = Ok (JStr u)))
  /\ (forall r' s', main env (initial fs) = (r', s') -> net_log s' = net_log s2).
Proof.
  intros Hd Hg.
  pose proof (reaches_download_log env _ _ _ Hd) as Hs1.
  split; [rewrite Hs1; reflexivity|]. split.
  - destruct (get_installer_frame env _ _ _ _ Hg) as (_ & extra & Hlog & Hextra).
    exists extra. rewrite Hs1 in Hlog, Hextra. cbn [net_log length app] in Hlog, Hextra.
    split; [exact Hlog|].
    destruct Hextra as [[He _] | Hsel]; [left; exact He | right; exact Hsel].
  - intros r' s'. apply (main_net_log_after_download env _ _ _ _ _ _ _ Hd Hg).
Qed.

Lemma feed_requested_twice_witness :
  net_log (snd (main Sample.env_moving Sample.start))
  = [GITHUB_RELEASES_URL; GITHUB_RELEASES_URL;
     "https://example.org/npp.8.6.4.Installer.x64.exe"%string]
  /\ fst (get_latest_version Sample.env_moving Sample.start) = Ok (Some "8.6.3"%string).
Proof.
  pose (s1 := mkState ∅ [GITHUB_RELEASES_URL] []).
  assert (Hd : reaches_download Sample.env_moving (initial ∅) "x64" s1).
  { exists "4.5.1"%string, "8.6.3"%string, (-1).
    repeat split; try (vm_compute; reflexivity). }
  destruct (get_installer "x64" Sample.env_moving s1) as [r s2] eqn:Hg.
  destruct (feed_requested_twice Sample.env_moving ∅ "x64" s1 s2 r Hd Hg)
    as (_ & _ & Hmain).
  split; [|vm_compute; reflexivity].
  unfold Sample.start.
  rewrite (Hmain _ _ (surjective_pairing (main Sample.env_moving (initial ∅)))).
  assert (E : s2 = snd (get_installer "x64" Sample.env_moving s1))
    by (rewrite Hg; reflexivity).
  rewrite E. vm_compute. reflexivity.
Defined.

(** * Further properties of the script *)

(** ** The feed client *)

Section FeedClient.

Variable env : Env.

(** [get_latest_version], handler by handler. *)
Lemma get_latest_version_eq (s : State) :
  get_latest_version env s =
  (match http env (length (net_log s)) GITHUB_RELEASES_URL with
   | None => Ok None
   | Some res =>
       if status_ok res then
         match body res with
         | None => Ok None
         | Some doc =>
             match Py.getitem doc "tag_name" with
             | Raise e => Raise e
             | Ok tag =>
                 match Py.lstrip tag "v" with
                 | Raise e => Raise e
                 | Ok version => Ok (Some version)
                 end
             end
         end
       else Ok None
   end, requested GITHUB_RELEASES_URL s).
Proof.
  unfold get_latest_version, try_except, M_bind, requests_get, raise_for_status,
    response_json, lift, raise, M_ret, requested.
  destruct (http env _ _) as [res|]; [|reflexivity].
  destruct (status_ok res); [|reflexivity].
  destruct (body res) as [doc|]; [|reflexivity].
  destruct (Py.getitem doc "tag_name") as [tag|e] eqn:Ht.
  - destruct (Py.lstrip tag "v") as [v|e] eqn:Hv; [reflexivity|].
    apply lstrip_raises in Hv. subst e. reflexivity.
  - apply getitem_raises in Ht as [-> | ->]; reflexivity.
Qed.

Lemma lstrip_run (c : ascii) (s : string) :
  exists k, s = (run_of c k +:+ Str.lstrip c s)%string.
Proof.
  induction s as [|a s IH]; cbn [Str.lstrip].
  - exists 0%nat. reflexivity.
  - destruct (Ascii.eqb a c) eqn:Hac.
    + apply Ascii.eqb_eq in Hac. subst a. destruct IH as [k Hk].
      exists (S k). unfold run_of in *.
      change (String c s
              = String c (string_of_list_ascii (repeat c k) +:+ Str.lstrip c s)%string).
      f_equal. exact Hk.
    + exists 0%nat. reflexivity.
Qed.

Lemma lstrip_no_lead (c : ascii) (s : string) :
  Str.startswith (String c EmptyString) (Str.lstrip c s) = false.
Proof.
  induction s as [|a s IH]; cbn [Str.lstrip]; [reflexivity|].
  destruct (Ascii.eqb a c) eqn:Hac; [exact IH|].
  cbn [Str.startswith]. rewrite Ascii.eqb_sym, Hac. reflexivity.
Qed.

Lemma lstrip_of_run (c : ascii) (k : nat) : Str.lstrip c (run_of c k) = EmptyString.
Proof.
  induction k as [|k IH]; [reflexivity|].
  unfold run_of in *. cbn [repeat string_of_list_ascii Str.lstrip].
  rewrite Ascii.eqb_refl. exact IH.
Qed.

End FeedClient.

(** X1.  [get_latest_version] answers [None], without raising, when the
    request fails in transport, when the status is an error, and when the
    body is not JSON; in each case exactly one request, to the feed, has been
    sent and nothing else changed. *)
Theorem get_latest_version_none_on_failure (env : Env) (s : State) :
  (http env (length (net_log s)) GITHUB_RELEASES_URL = None
   \/ exists res, http env (length (net_log s)) GITHUB_RELEASES_URL = Some res
                  /\ (status_ok res = false \/ body res = None)) ->
  get_latest_version env s = (Ok None, requested GITHUB_RELEASES_URL s).
Proof.
  rewrite get_latest_version_eq.
  intros [-> | (res & -> & [Hs | Hb])]; [reflexivity | rewrite Hs; reflexivity |].
  rewrite Hb. destruct (status_ok res); reflexivity.
Qed.

Lemma get_latest_version_none_on_failure_witness :
  get_latest_version Sample.env_offline Sample.start
  = (Ok None, mkState ∅ [GITHUB_RELEASES_URL] []).
Proof.
  apply (get_latest_version_none_on_failure Sample.env_offline Sample.start).
  left. reflexivity.
Defined.

(** X2.  On a successful answer whose [tag_name] is a string,
    [get_latest_version] returns the tag without all of its leading "v"s,
    not only the first: the tag is some number of "v"s followed by the
    result, and the result does not start with "v". *)
Theorem get_latest_version_strips_every_v
    (env : Env) (s : State) (res : response) (doc : json) (tag : string) :
  http env (length (net_log s)) GITHUB_RELEASES_URL = Some res ->
  status_ok res = true ->
  body res = Some doc ->
  Py.getitem doc "tag_name" = Ok (JStr tag) ->
  exists version k,
    get_latest_version env s = (Ok (Some version), requested GITHUB_RELEASES_URL s)
    /\ tag = (run_of "v" k +:+ version)%string
    /\ Str.startswith "v" version = false.
Proof.
  intros Hres Hst Hdoc Htag.
  destruct (lstrip_run "v" tag) as [k Hk].
  exists (Str.lstrip "v" tag), k.
  rewrite get_latest_version_eq, Hres, Hst, Hdoc, Htag. cbn [Py.lstrip].
  split; [reflexivity|]. split; [exact Hk | apply lstrip_no_lead].
Qed.

Lemma get_latest_version_strips_every_v_witness :
  exists k,
    fst (get_latest_version
           (Sample.env_of ∅ (Sample.always (Sample.release "vv8.6.3" [])) ExitZero)
           Sample.start) = Ok (Some "8.6.3"%string)
    /\ "vv8.6.3"%string = (run_of "v" k +:+ "8.6.3")%string.
Proof.
  destruct (get_latest_version_strips_every_v
              (Sample.env_of ∅ (Sample.always (Sample.release "vv8.6.3" [])) ExitZero)
              Sample.start
              (mkResponse true (Some (Sample.release "vv8.6.3" [])) Copied)
              (Sample.release "vv8.6.3" []) "vv8.6.3"
              eq_refl eq_refl eq_refl eq_refl) as (version & k & Hg & Htag & _).
  exists k.
  assert (Hv : version = "8.6.3"%string) by (vm_compute in Hg; congruence).
  subst version. split; [vm_compute; reflexivity | exact Htag].
Defined.



(** X4.  A tag made of "v"s only (the empty tag included) leaves an empty
    version, which [main] takes for a failed fetch: with an installation
    present it returns 3 after the one request. *)
Theorem main_all_v_tag_is_fetch_failure
    (env : Env) (s : State) (cv a : string) (res : response) (doc : json) (k : nat) :
  installed env s cv a ->
  http env (length (net_log s)) GITHUB_RELEASES_URL = Some res ->
  status_ok res = true ->
  body res = Some doc ->
  Py.getitem doc "tag_name" = Ok (JStr (run_of "v" k)) ->
  main env s = (Ok 3, requested GITHUB_RELEASES_URL s).
Proof.
  intros Hi Hres Hst Hdoc Htag.
  apply installed_probe in Hi as (Hp & Hcv & Ha).
  rewrite main_eq, Hp, Hcv, Ha, get_latest_version_eq, Hres, Hst, Hdoc, Htag.
  cbn [Py.lstrip andb]. rewrite lstrip_of_run. reflexivity.
Qed.

Lemma main_all_v_tag_is_fetch_failure_witness :
  main (Sample.env_of (Sample.registry_x64 "8.6")
          (Sample.always (Sample.release "v" Sample.assets_863)) ExitZero)
       Sample.start
  = (Ok 3, mkState ∅ [GITHUB_RELEASES_URL] []).
Proof.
  apply (main_all_v_tag_is_fetch_failure
           (Sample.env_of (Sample.registry_x64 "8.6")
              (Sample.always (Sample.release "v" Sample.assets_863)) ExitZero)
           Sample.start "8.6" "x64"
           (mkResponse true (Some (Sample.release "v" Sample.assets_863)) Copied)
           (Sample.release "v" Sample.assets_863) 1).
  - repeat split; vm_compute; reflexivity.
  - reflexivity.
  - reflexivity.
  - reflexivity.
  - reflexivity.
Defined.

(** ** The selector and downloader *)

Section Download.

Variable env : Env.

Lemma asset_matches_named (arch : string) (asset : json) (n : string) :
  named asset n -> asset_matches arch asset = Ok (eligible arch n).
Proof.
  unfold named, asset_matches, eligible. intros ->. cbn [Py.endswith].
  destruct (Str.endswith n (arch +:+ ".exe") && String.eqb arch "x64"); reflexivity.
Qed.

Lemma select_download_url_skips (arch : string) (before rest : list json) :
  Forall (fun asset => exists n, named asset n /\ eligible arch n = false) before ->
  select_download_url arch (before ++ rest) = select_download_url arch rest.
Proof.
  induction 1 as [|asset before (n & Hn & He) _ IH]; [reflexivity|].
  cbn [app select_download_url]. rewrite (asset_matches_named _ _ _ Hn), He. exact IH.
Qed.

Lemma eligible_known_arch (arch n : string) :
  eligible arch n = true -> arch = "x64"%string \/ arch = "x86"%string.
Proof.
  unfold eligible. intros H. apply orb_true_iff in H as [H | H];
    apply andb_true_iff in H as [_ H]; apply String.eqb_eq in H; auto.
Qed.

Lemma asset_matches_known_arch (arch : string) (asset : json) :
  asset_matches arch asset = Ok true -> arch = "x64"%string \/ arch = "x86"%string.
Proof.
  unfold asset_matches.
  destruct (Py.getitem asset "name") as [n|]; [|discriminate].
  destruct (Py.endswith n (arch +:+ ".exe")) as [a0|]; [|discriminate].
  destruct (String.eqb arch "x64") eqn:H64; [apply String.eqb_eq in H64; auto|].
  rewrite andb_false_r.
  destruct (Py.endswith n "Installer.exe") as [c|]; [|discriminate].
  destruct (String.eqb arch "x86") eqn:H86; [apply String.eqb_eq in H86; auto|].
  rewrite andb_false_r. discriminate.
Qed.

Lemma select_download_url_unknown_arch (arch : string) (items : list json) (url : json) :
  arch <> "x64"%string -> arch <> "x86"%string ->
  select_download_url arch items = Ok url -> url = JNull.
Proof.
  intros H64 H86. induction items as [|asset rest IH]; cbn [select_download_url].
  - intros [= <-]. reflexivity.
  - destruct (asset_matches arch asset) as [[|]|e] eqn:Hm; [|exact IH|discriminate].
    apply asset_matches_known_arch in Hm as [-> | ->]; congruence.
Qed.

Lemma length_append (a b : string) :
  String.length (a +:+ b) = (String.length a + String.length b)%nat.
Proof. induction a as [|c a IH]; [reflexivity | exact (f_equal S IH)]. Qed.

Lemma append_assoc (a b c : string) :
  ((a +:+ b) +:+ c = a +:+ (b +:+ c))%string.
Proof. induction a as [|x a IH]; [reflexivity | exact (f_equal (String x) IH)]. Qed.

(** Two suffixes of one string that have the same length are equal. *)
Lemma suffix_same_length (p q u v : string) :
  (p +:+ u = q +:+ v)%string -> String.length u = String.length v -> u = v.
Proof.
  revert q. induction p as [|c p IH]; intros q H Hlen.
  - destruct q as [|d q]; [exact H|]. exfalso.
    change (u = String d (q +:+ v)) in H.
    apply (f_equal String.length) in H. cbn [String.length] in H.
    rewrite length_append in H. lia.
  - destruct q as [|d q].
    + exfalso. change (String c (p +:+ u) = v) in H.
      apply (f_equal String.length) in H. cbn [String.length] in H.
      rewrite length_append in H. lia.
    + change (String c (p +:+ u) = String d (q +:+ v)) in H.
      injection H as _ H. exact (IH q H Hlen).
Qed.

Lemma x64_suffix_not_installer_suffix (n : string) :
  Str.endswith n "x64.exe" = true -> Str.endswith n "Installer.exe" = false.
Proof.
  intros H64. destruct (Str.endswith n "Installer.exe") eqn:Hi; [|reflexivity].
  apply endswith_spec in H64 as [p Hp]. apply endswith_spec in Hi as [q Hq].
  exfalso. rewrite Hp in Hq.
  change "Installer.exe"%string with ("Instal" +:+ "ler.exe")%string in Hq.
  rewrite <- append_assoc in Hq.
  apply suffix_same_length in Hq; [discriminate | reflexivity].
Qed.

(** A returned path: the state it leaves. *)
Lemma get_installer_some_state (a : string) (s s2 : State) (path : string) :
  get_installer a env s = (Ok (Some path), s2) ->
  path = installer_file a
  /\ exists u,
       s2 = mkState ({[path]} ∪ files s)
              (net_log s ++ [GITHUB_RELEASES_URL; u]) (proc_log s).
Proof.
  rewrite get_installer_eq. cbn zeta.
  destruct (http env _ _) as [res|]; [|discriminate].
  destruct (status_ok res); [|discriminate].
  destruct (body res) as [doc|]; [|discriminate].
  destruct (Py.getitem doc "assets") as [assets|]; [|discriminate].
  destruct (Py.iter assets) as [items|]; [|discriminate].
  destruct (select_download_url a items) as [url|]; [|discriminate].
  destruct (Py.truthy url); [|discriminate].
  destruct url as [| | |u| |]; try discriminate.
  destruct (sendable env u); [|discriminate].
  destruct (http env _ u) as [r2|]; [|discriminate].
  destruct (status_ok r2); [|discriminate].
  destruct (decide _); [discriminate|].
  destruct (raw r2); try discriminate.
  intros [= <- <-]. split; [reflexivity|]. cbn [files net_log proc_log requested].
  exists u. rewrite <- app_assoc. reflexivity.
Qed.

(** Any other end of [get_installer]: no file other than the installer
    file has changed. *)
Lemma get_installer_other_state (a : string) (s s2 : State) (r : result (option string)) :
  get_installer a env s = (r, s2) ->
  (forall path, r <> Ok (Some path)) ->
  (forall p, p <> installer_file a -> (p ∈ files s2 <-> p ∈ files s))
  /\ proc_log s2 = proc_log s
  /\ exists extra, net_log s2 = net_log s ++ GITHUB_RELEASES_URL :: extra
                   /\ (extra = [] \/ exists u, extra = [u]).
Proof.
  rewrite get_installer_eq. cbn zeta. intros H Hr.
  assert (H1 : forall r0, (r0, requested GITHUB_RELEASES_URL s) = (r, s2) ->
      (forall p, p <> installer_file a -> (p ∈ files s2 <-> p ∈ files s))
      /\ proc_log s2 = proc_log s
      /\ exists extra, net_log s2 = net_log s ++ GITHUB_RELEASES_URL :: extra
                       /\ (extra = [] \/ exists u, extra = [u])).
  { intros r0 [= _ <-]. repeat split; auto. exists []. auto. }
  assert (H2 : forall r0 u fs,
      (forall p, p <> installer_file a -> (p ∈ fs <-> p ∈ files s)) ->
      (r0, mkState fs (net_log (requested u (requested GITHUB_RELEASES_URL s)))
             (proc_log s)) = (r, s2) ->
      (forall p, p <> installer_file a -> (p ∈ files s2 <-> p ∈ files s))
      /\ proc_log s2 = proc_log s
      /\ exists extra, net_log s2 = net_log s ++ GITHUB_RELEASES_URL :: extra
                       /\ (extra = [] \/ exists u, extra = [u])).
  { intros r0 u fs Hfs [= _ <-]. split; [exact Hfs|]. split; [reflexivity|].
    exists [u]. cbn [requested net_log]. rewrite <- app_assoc. eauto. }
  assert (Hsame : forall p, p <> installer_file a -> (p ∈ files s <-> p ∈ files s))
    by reflexivity.
  assert (Hadd : forall p, p <> installer_file a ->
                   (p ∈ {[installer_file a]} ∪ files s <-> p ∈ files s)).
  { intros p Hp. rewrite elem_of_union, elem_of_singleton. tauto. }
  revert H.
  destruct (http env _ _) as [res|]; [|apply H1].
  destruct (status_ok res); [|apply H1].
  destruct (body res) as [doc|]; [|apply H1].
  destruct (Py.getitem doc "assets") as [assets|]; [|apply H1].
  destruct (Py.iter assets) as [items|]; [|apply H1].
  destruct (select_download_url a items) as [url|]; [|apply H1].
  destruct (Py.truthy url); [|apply H1].
  destruct url as [| | |u| |]; try apply H1.
  destruct (sendable env u); [|apply H1].
  destruct (http env _ u) as [r2|]; [|apply (H2 _ u _ Hsame)].
  destruct (status_ok r2); [|apply (H2 _ u _ Hsame)].
  destruct (decide _); [apply (H2 _ u _ Hsame)|].
  destruct (raw r2); [|apply (H2 _ u _ Hadd)|apply (H2 _ u _ Hadd)].
  intros [= <- _]. destruct (Hr _ eq_refl).
Qed.

End Download.

(** X5.  When [get_installer] returns a path, it is
    "npp_installer_<arch>.exe", that file is now present, and exactly two
    requests were sent: the feed request and one download request; no
    process was started and no other file changed. *)
Theorem get_installer_returns_downloaded_file
    (env : Env) (a : string) (s s2 : State) (path : string) :
  get_installer a env s = (Ok (Some path), s2) ->
  path = installer_file a
  /\ (path ∈ files s2)
  /\ exists u,
       s2 = mkState ({[path]} ∪ files s)
              (net_log s ++ [GITHUB_RELEASES_URL; u]) (proc_log s).
Proof.
  intros H. destruct (get_installer_some_state env _ _ _ _ H) as (Hp & u & Hs).
  split; [exact Hp|]. split; [|eauto].
  rewrite Hs. cbn [files]. apply elem_of_union_l, elem_of_singleton. reflexivity.
Qed.

Lemma get_installer_returns_downloaded_file_witness :
  exists u,
    snd (get_installer "x64" Sample.env_update (mkState ∅ [GITHUB_RELEASES_URL] []))
    = mkState ({["npp_installer_x64.exe"%string]} ∪ ∅)
        ([GITHUB_RELEASES_URL] ++ [GITHUB_RELEASES_URL; u]) [].
Proof.
  destruct (get_installer_returns_downloaded_file Sample.env_update "x64"
              (mkState ∅ [GITHUB_RELEASES_URL] [])
              (snd (get_installer "x64" Sample.env_update
                      (mkState ∅ [GITHUB_RELEASES_URL] [])))
              "npp_installer_x64.exe") as (_ & _ & u & Hu).
  - vm_compute. reflexivity.
  - exists u. exact Hu.
Defined.



(** X7.  For an architecture other than "x64" and "x86" no asset is ever
    selected: the loop ends with [None] unless it raises, and
    [get_installer] sends the feed request only and returns no path. *)
Theorem get_installer_unknown_arch_selects_nothing
    (env : Env) (arch : string) (s s2 : State) (r : result (option string)) :
  arch <> "x64"%string -> arch <> "x86"%string ->
  (forall items url, select_download_url arch items = Ok url -> url = JNull)
  /\ (get_installer arch env s = (r, s2) ->
      s2 = requested GITHUB_RELEASES_URL s /\ forall path, r <> Ok (Some path)).
Proof.
  intros H64 H86. split.
  - intros items url. apply select_download_url_unknown_arch; assumption.
  - rewrite get_installer_eq. cbn zeta.
    destruct (http env _ _) as [res|]; [|intros [= <- <-]; split; [reflexivity | discriminate]].
    destruct (status_ok res); [|intros [= <- <-]; split; [reflexivity | discriminate]].
    destruct (body res) as [doc|]; [|intros [= <- <-]; split; [reflexivity | discriminate]].
    destruct (Py.getitem doc "assets") as [assets|];
      [|intros [= <- <-]; split; [reflexivity | discriminate]].
    destruct (Py.iter assets) as [items|];
      [|intros [= <- <-]; split; [reflexivity | discriminate]].
    destruct (select_download_url arch items) as [url|] eqn:Hsel;
      [|intros [= <- <-]; split; [reflexivity | discriminate]].
    apply select_download_url_unknown_arch in Hsel; [|assumption|assumption].
    subst url. cbn [Py.truthy]. intros [= <- <-]. split; [reflexivity | discriminate].
Qed.

Lemma get_installer_unknown_arch_selects_nothing_witness :
  get_installer "arm64" Sample.env_update Sample.start
  = (Ok None, requested GITHUB_RELEASES_URL Sample.start).
Proof.
  assert (H64 : "arm64"%string <> "x64"%string) by discriminate.
  assert (H86 : "arm64"%string <> "x86"%string) by discriminate.
  destruct (get_installer "arm64" Sample.env_update Sample.start) as [r s2] eqn:Hg.
  destruct (proj2 (get_installer_unknown_arch_selects_nothing
                     Sample.env_update "arm64" Sample.start s2 r H64 H86) Hg)
    as [-> _].
  assert (Hr : r = fst (get_installer "arm64" Sample.env_update Sample.start))
    by (rewrite Hg; reflexivity).
  vm_compute in Hr. rewrite Hr. reflexivity.
Defined.

(** X8.  No asset is eligible for both architectures: one that passes the
    test of lines 148-149 for "x64" fails it for "x86". *)
Theorem asset_not_eligible_for_both (asset : json) :
  asset_matches "x64" asset = Ok true -> asset_matches "x86" asset = Ok false.
Proof.
  unfold asset_matches.
  destruct (Py.getitem asset "name") as [n|]; [|discriminate].
  destruct n as [| | |n| |]; try discriminate. cbn [Py.endswith].
  change ("x64" +:+ ".exe")%string with "x64.exe"%string.
  change ("x86" +:+ ".exe")%string with "x86.exe"%string.
  change (String.eqb "x64" "x64") with true.
  change (String.eqb "x64" "x86") with false.
  change (String.eqb "x86" "x64") with false.
  change (String.eqb "x86" "x86") with true.
  rewrite !andb_true_r, !andb_false_r.
  destruct (Str.endswith n "x64.exe") eqn:H64; [|discriminate].
  intros _. rewrite (x64_suffix_not_installer_suffix n H64). reflexivity.
Qed.

Lemma asset_not_eligible_for_both_witness :
  asset_matches "x86" (Sample.asset "npp.8.6.3.Installer.x64.exe" "https://example.org/b")
  = Ok false.
Proof.
  apply asset_not_eligible_for_both. reflexivity.
Defined.

(** X9.  The asset loop stops at the first eligible asset: assets before it
    need only a string [name], and what follows it in the list is never
    looked at, whatever it is. *)
Theorem select_download_url_ignores_rest
    (arch : string) (before rest : list json) (asset url : json) (n : string) :
  Forall (fun x => exists m, named x m /\ eligible arch m = false) before ->
  named asset n -> eligible arch n = true ->
  Py.getitem asset "browser_download_url" = Ok url ->
  select_download_url arch (before ++ asset :: rest) = Ok url.
Proof.
  intros Hbefore Hn He Hurl.
  rewrite (select_download_url_skips arch before _ Hbefore).
  cbn [select_download_url]. rewrite (asset_matches_named _ _ _ Hn), He. exact Hurl.
Qed.

Lemma select_download_url_ignores_rest_witness :
  select_download_url "x64"
    ([JObj [("name"%string, JStr "notes.txt")]]
     ++ Sample.asset "npp.x64.exe" "https://example.org/b" :: [JNum 7; JNull])
  = Ok (JStr "https://example.org/b").
Proof.
  apply (select_download_url_ignores_rest "x64" _ _ _ _ "npp.x64.exe").
  - constructor; [|constructor]. exists "notes.txt"%string. split; reflexivity.
  - reflexivity.
  - reflexivity.
  - reflexivity.
Defined.

(** X10.  Assets that are not eligible need no download URL: when every
    asset of the feed answer has a string [name] that is not eligible,
    [get_installer] returns [None] after the feed request, without raising. *)
Theorem get_installer_none_without_eligible_name
    (env : Env) (arch : string) (s : State) (res : response) (doc assets : json)
    (items : list json) :
  http env (length (net_log s)) GITHUB_RELEASES_URL = Some res ->
  status_ok res = true ->
  body res = Some doc ->
  Py.getitem doc "assets" = Ok assets ->
  Py.iter assets = Ok items ->
  Forall (fun x => exists m, named x m /\ eligible arch m = false) items ->
  get_installer arch env s = (Ok None, requested GITHUB_RELEASES_URL s).
Proof.
  intros Hres Hst Hdoc Hassets Hitems Hall.
  rewrite get_installer_eq, Hres, Hst, Hdoc, Hassets, Hitems. cbn zeta.
  rewrite <- (app_nil_r items), (select_download_url_skips arch items [] Hall).
  reflexivity.
Qed.

Lemma get_installer_none_without_eligible_name_witness :
  get_installer "x64"
    (Sample.env_of ∅
       (Sample.always (JObj [("assets"%string,
                               JArr [JObj [("name"%string, JStr "unrelated-file.zip")]])]))
       ExitZero)
    Sample.start
  = (Ok None, requested GITHUB_RELEASES_URL Sample.start).
Proof.
  eapply get_installer_none_without_eligible_name.
  - reflexivity.
  - reflexivity.
  - reflexivity.
  - reflexivity.
  - reflexivity.
  - constructor; [|constructor].
    exists "unrelated-file.zip"%string. split; reflexivity.
Defined.

(** X11.  A download request is sent only for a selected URL that is a
    non-empty string: when the eligible asset's URL is empty, [null] or any
    other value, [get_installer] returns [None] with the feed request as its
    only request. *)
Theorem get_installer_needs_text_url
    (env : Env) (arch : string) (s : State) (res : response) (doc assets url : json)
    (items : list json) :
  http env (length (net_log s)) GITHUB_RELEASES_URL = Some res ->
  status_ok res = true ->
  body res = Some doc ->
  Py.getitem doc "assets" = Ok assets ->
  Py.iter assets = Ok items ->
  select_download_url arch items = Ok url ->
  (forall u, url = JStr u -> u = EmptyString) ->
  get_installer arch env s = (Ok None, requested GITHUB_RELEASES_URL s).
Proof.
  intros Hres Hst Hdoc Hassets Hitems Hsel Hurl.
  rewrite get_installer_eq, Hres, Hst, Hdoc, Hassets, Hitems, Hsel. cbn zeta.
  destruct url as [| | |u| |]; try (destruct (Py.truthy _); reflexivity).
  rewrite (Hurl u eq_refl). reflexivity.
Qed.

Lemma get_installer_needs_text_url_witness :
  get_installer "x64"
    (Sample.env_of ∅
       (Sample.always (Sample.release "v8.6.3" [Sample.asset "npp.x64.exe" ""]))
       ExitZero)
    Sample.start
  = (Ok None, requested GITHUB_RELEASES_URL Sample.start).
Proof.
  eapply (get_installer_needs_text_url _ _ _ _ _ _ (JStr "")).
  - reflexivity.
  - reflexivity.
  - reflexivity.
  - reflexivity.
  - reflexivity.
  - reflexivity.
  - intros u [= <-]. reflexivity.
Defined.



(** ** The installer runner *)

Section Runner.

Variable env : Env.

(** [run_installer], branch by branch: the clean-up is the same in the
    body and in both handlers. *)
Lemma run_installer_eq (path : string) (s : State) :
  run_installer path env s =
  let s1 := started [path; "/S"%string] s in
  let answer :=
    match installer env [path; "/S"%string] with
    | ExitZero => true
    | _ => false
    end in
  if decide (path ∈ files s) then
    if decide (path ∈ undeletable env) then (Raise PermissionError, s1)
    else (Ok answer, mkState (files s ∖ {[path]}) (net_log s1) (proc_log s1))
  else (Ok answer, s1).
Proof.
  unfold run_installer, try_except, M_bind, subprocess_run, M_ret, started. cbn zeta.
  destruct (installer env [path; "/S"%string]);
    cbn [dispatch is_CalledProcessError is_OSError];
    unfold M_bind; rewrite !remove_if_exists_eq; cbn [files net_log proc_log];
    destruct (decide (path ∈ files s)) as [Hin|Hin];
    try destruct (decide (path ∈ undeletable env)) as [Hud|Hud];
    cbn [dispatch is_CalledProcessError is_OSError];
    unfold M_bind; rewrite ?remove_if_exists_eq; cbn [files net_log proc_log];
    repeat match goal with
      | |- context [decide (path ∈ files s)] =>
          destruct (decide (path ∈ files s)); [|contradiction]
      | |- context [decide (path ∈ undeletable env)] =>
          destruct (decide (path ∈ undeletable env)); [|contradiction]
      end;
    reflexivity.
Qed.

Lemma run_installer_state (path : string) (s s' : State) (r : result bool) :
  run_installer path env s = (r, s') ->
  proc_log s' = proc_log s ++ [[path; "/S"%string]]
  /\ net_log s' = net_log s
  /\ forall p, p <> path -> (p ∈ files s' <-> p ∈ files s).
Proof.
  rewrite run_installer_eq. cbn zeta.
  destruct (decide (path ∈ files s)); [destruct (decide (path ∈ undeletable env))|];
    intros [= _ <-]; cbn [started files net_log proc_log];
    (split; [reflexivity|]); (split; [reflexivity|]); intros p Hp; try reflexivity.
  rewrite elem_of_difference, elem_of_singleton. tauto.
Qed.

End Runner.

(** X13.  However [run_installer] ends, it has started exactly one
    process, the file at [path] with the single argument "/S", has sent no
    request, and has neither created a file nor removed any file other than
    [path]. *)
Theorem run_installer_touches_only_its_file
    (env : Env) (path : string) (s s' : State) (r : result bool) :
  run_installer path env s = (r, s') ->
  proc_log s' = proc_log s ++ [[path; "/S"%string]]
  /\ net_log s' = net_log s
  /\ forall p, p <> path -> (p ∈ files s' <-> p ∈ files s).
Proof. apply run_installer_state. Qed.

Lemma run_installer_touches_only_its_file_witness :
  "notes.txt"%string
  ∈ files (snd (run_installer "npp_installer_x64.exe" Sample.env_update
                  (mkState {["npp_installer_x64.exe"%string; "notes.txt"%string]} [] []))).
Proof.
  destruct (run_installer_touches_only_its_file Sample.env_update "npp_installer_x64.exe"
              (mkState {["npp_installer_x64.exe"%string; "notes.txt"%string]} [] []) _ _
              (surjective_pairing _)) as (_ & _ & H).
  apply (H "notes.txt"%string); [discriminate|].
  cbn [files]. apply elem_of_union_r, elem_of_singleton. reflexivity.
Defined.

(** X14.  [run_installer] raises exactly when the file exists and cannot be
    deleted: the handlers repeat the unguarded [os.remove], so its
    [PermissionError] leaves the function, after the installer was started,
    with the file still in place. *)
Theorem run_installer_raises_iff_undeletable (env : Env) (path : string) (s : State) :
  (path ∈ files s -> path ∈ undeletable env ->
   run_installer path env s = (Raise PermissionError, started [path; "/S"%string] s))
  /\ (forall e s', run_installer path env s = (Raise e, s') ->
        e = PermissionError
        /\ (path ∈ files s) /\ (path ∈ undeletable env) /\ (path ∈ files s')).
Proof.
  rewrite run_installer_eq. cbn zeta. split.
  - intros Hin Hud.
    destruct (decide (path ∈ files s)); [|contradiction].
    destruct (decide (path ∈ undeletable env)); [reflexivity | contradiction].
  - intros e s'.
    destruct (decide (path ∈ files s)) as [Hin|]; [|discriminate].
    destruct (decide (path ∈ undeletable env)) as [Hud|]; [|discriminate].
    intros [= <- <-]. auto.
Qed.

Lemma run_installer_raises_iff_undeletable_witness :
  run_installer "npp_installer_x64.exe"
    (mkEnv ∅ (fun _ _ => None) (fun _ => ExitZero) ∅ {["npp_installer_x64.exe"%string]}
       (fun _ => false))
    (mkState {["npp_installer_x64.exe"%string]} [] [])
  = (Raise PermissionError,
     started ["npp_installer_x64.exe"; "/S"]%string
       (mkState {["npp_installer_x64.exe"%string]} [] [])).
Proof.
  apply (proj1 (run_installer_raises_iff_undeletable
           (mkEnv ∅ (fun _ _ => None) (fun _ => ExitZero) ∅ {["npp_installer_x64.exe"%string]}
       (fun _ => false))
           "npp_installer_x64.exe" (mkState {["npp_installer_x64.exe"%string]} [] []))).
  - cbn [files]. apply elem_of_singleton. reflexivity.
  - cbn [undeletable]. apply elem_of_singleton. reflexivity.
Defined.

(** ** The probe, again *)

(** X15.  [get_arch] prefers the WOW6432Node key: its display name decides
    whenever it has one.  A WOW6432Node key that is missing, or that opens
    but has no [DisplayName], is passed over alike and the native key
    decides; with no display name under either key the answer is [None]
    with an empty path. *)
Theorem get_arch_prefers_wow_key (env : Env) (s : State) :
  (forall n, display_name_at env Sample.wow_path = Some n ->
     get_arch env s = (Ok (Some (marker_arch n), Sample.wow_path), s))
  /\ (forall n,
        (registry env !! Sample.wow_path = None
         \/ exists key, registry env !! Sample.wow_path = Some key
                        /\ key !! "DisplayName"%string = None) ->
        display_name_at env Sample.native_path = Some n ->
        get_arch env s = (Ok (Some (marker_arch n), Sample.native_path), s))
  /\ (display_name_at env Sample.wow_path = None ->
      display_name_at env Sample.native_path = None ->
      get_arch env s = (Ok (None, EmptyString), s)).
Proof.
  unfold get_arch. rewrite get_arch_from_eq.
  change npp_reg_paths with [Sample.wow_path; Sample.native_path].
  cbn [first_named]. split; [|split].
  - intros n ->. reflexivity.
  - intros n Hwow Hnat.
    assert (Hd : display_name_at env Sample.wow_path = None).
    { unfold display_name_at. destruct Hwow as [-> | (key & -> & Hk)]; auto. }
    rewrite Hd, Hnat. reflexivity.
  - intros -> ->. reflexivity.
Qed.

Lemma get_arch_prefers_wow_key_witness :
  get_arch Sample.env_split Sample.start
  = (Ok (Some "x86"%string, Sample.wow_path), Sample.start).
Proof.
  apply (proj1 (get_arch_prefers_wow_key Sample.env_split Sample.start)
           "Notepad++ (32-bit x86)"%string).
  vm_compute. reflexivity.
Defined.

(** X16.  The probe never raises, changes nothing, and answers either
    [(None, None)] or a version together with an architecture that is "x64"
    or "x86": a version never comes without an architecture. *)
Theorem get_current_version_shape (env : Env) (s : State) :
  exists v a,
    get_current_version env s = (Ok (v, a), s)
    /\ ((v = None /\ a = None)
        \/ (exists version, v = Some version)
           /\ (a = Some "x64"%string \/ a = Some "x86"%string)).
Proof.
  rewrite get_current_version_eq. unfold probe_first_named.
  destruct (first_named env npp_reg_paths) as [[path n]|]; [|eauto 6].
  destruct (display_version_at env path) as [version|]; [|eauto 6].
  exists (Some version), (Some (marker_arch n)). split; [reflexivity|]. right.
  split; [eauto|]. unfold marker_arch. destruct (Str.contains "x64" n); auto.
Qed.

(** ** Whole runs *)

Section Runs.

Variable env : Env.

Lemma probe_arch_known (cv a : string) :
  probe_first_named env = (Some cv, Some a) -> a = "x64"%string \/ a = "x86"%string.
Proof.
  unfold probe_first_named.
  destruct (first_named env npp_reg_paths) as [[path n]|]; [|discriminate].
  destruct (display_version_at env path); [|discriminate].
  intros [= _ <-]. unfold marker_arch. destruct (Str.contains "x64" n); auto.
Qed.

(** Where a run of [main] can stop, and the state it is in then. *)
Lemma main_state (s s' : State) (r : result Z) :
  main env s = (r, s') ->
  s' = s
  \/ s' = requested GITHUB_RELEASES_URL s
  \/ exists a, (a = "x64"%string \/ a = "x86"%string)
       /\ ((exists r2, get_installer a env (requested GITHUB_RELEASES_URL s) = (r2, s')
                       /\ forall path, r2 <> Ok (Some path))
           \/ exists s2 rb,
                get_installer a env (requested GITHUB_RELEASES_URL s)
                  = (Ok (Some (installer_file a)), s2)
                /\ run_installer (installer_file a) env s2 = (rb, s')).
Proof.
  rewrite main_eq.
  destruct (probe_first_named env) as [[cv|] [a|]] eqn:Hp;
    try (intros [= _ <-]; auto).
  pose proof (probe_arch_known _ _ Hp) as Ha.
  destruct (Str.truthy cv && Str.truthy a); [|intros [= _ <-]; auto].
  rewrite get_latest_version_eq.
  destruct (match http env _ _ with Some _ => _ | None => _ end) as [[lv|]|e];
    try (intros [= _ <-]; auto).
  destruct (Str.truthy lv); [|intros [= _ <-]; auto].
  destruct (compare_version cv lv) as [c|e]; [|intros [= _ <-]; auto].
  destruct (c <? 0); [|intros [= _ <-]; auto].
  destruct (get_installer a env (requested GITHUB_RELEASES_URL s)) as [r2 s2] eqn:Hg.
  destruct r2 as [[path|]|e].
  - pose proof (get_installer_some_state env _ _ _ _ Hg) as [-> _].
    change (Str.truthy (installer_file a)) with true. cbn iota.
    destruct (run_installer (installer_file a) env s2) as [rb s3] eqn:Hrun.
    intros H. right. right. exists a. split; [exact Ha|]. right.
    exists s2, rb. split; [exact Hg|].
    rewrite Hrun. destruct rb; injection H as _ <-; reflexivity.
  - intros [= _ <-]. right. right. exists a. split; [exact Ha|]. left.
    exists (Ok None). split; [exact Hg | discriminate].
  - intros [= _ <-]. right. right. exists a. split; [exact Ha|]. left.
    exists (Raise e). split; [exact Hg | discriminate].
Qed.





End Runs.

(** X17.  Whatever happens, one run of [main] sends at most three
    requests, the first two of them to the feed, and starts at most one
    process; a process is started only after the third request, the
    download, and it is "npp_installer_x64.exe" or "npp_installer_x86.exe"
    with the single argument "/S". *)
Theorem main_requests_and_processes (env : Env) (s s' : State) (r : result Z) :
  main env s = (r, s') ->
  exists reqs procs,
    net_log s' = net_log s ++ reqs
    /\ proc_log s' = proc_log s ++ procs
    /\ (reqs = [] \/ reqs = [GITHUB_RELEASES_URL]
        \/ reqs = [GITHUB_RELEASES_URL; GITHUB_RELEASES_URL]
        \/ exists u, reqs = [GITHUB_RELEASES_URL; GITHUB_RELEASES_URL; u])
    /\ (procs = []
        \/ (exists u, reqs = [GITHUB_RELEASES_URL; GITHUB_RELEASES_URL; u])
           /\ (procs = [["npp_installer_x64.exe"; "/S"]%string]
               \/ procs = [["npp_installer_x86.exe"; "/S"]%string])).
Proof.
  intros H. apply main_state in H as [-> | [-> | (a & Ha & [(r2 & Hg & Hr) | (s2 & rb & Hg & Hrun)])]].
  - exists [], []. rewrite !app_nil_r. auto.
  - exists [GITHUB_RELEASES_URL], []. cbn [requested net_log proc_log].
    rewrite app_nil_r. auto 6.
  - apply get_installer_other_state in Hg as (_ & Hp & extra & Hn & He); [|exact Hr].
    cbn [requested net_log proc_log] in Hn, Hp. rewrite <- app_assoc in Hn.
    exists ([GITHUB_RELEASES_URL] ++ GITHUB_RELEASES_URL :: extra), [].
    rewrite app_nil_r. split; [exact Hn|]. split; [exact Hp|]. split; [|auto].
    destruct He as [-> | [u ->]]; cbn [app]; eauto 6.
  - apply get_installer_some_state in Hg as (_ & u & ->).
    apply run_installer_state in Hrun as (Hp & Hn & _).
    cbn [requested net_log proc_log] in Hn, Hp. rewrite <- app_assoc in Hn.
    exists ([GITHUB_RELEASES_URL] ++ [GITHUB_RELEASES_URL; u]),
           [[installer_file a; "/S"%string]].
    split; [exact Hn|]. split; [exact Hp|]. cbn [app]. split; [eauto 6|].
    right. split; [eauto|]. destruct Ha as [-> | ->]; auto.
Qed.

Lemma main_requests_and_processes_witness :
  exists reqs procs,
    net_log (snd (main Sample.env_update Sample.start)) = [] ++ reqs
    /\ proc_log (snd (main Sample.env_update Sample.start)) = [] ++ procs
    /\ (length reqs <= 3)%nat /\ (length procs <= 1)%nat.
Proof.
  destruct (main_requests_and_processes Sample.env_update Sample.start _ _
              (surjective_pairing _)) as (reqs & procs & Hn & Hp & Hr & Hq).
  exists reqs, procs. split; [exact Hn|]. split; [exact Hp|]. split.
  - destruct Hr as [-> | [-> | [-> | [u ->]]]]; cbn [length]; lia.
  - destruct Hq as [-> | [_ [-> | ->]]]; cbn [length]; lia.
Defined.

(** X18.  A run of [main] leaves every file alone except the installer
    file it downloads: any path other than "npp_installer_x64.exe" and
    "npp_installer_x86.exe" exists after the run exactly if it existed
    before, however the run ends. *)
Theorem main_touches_only_installer_file
    (env : Env) (s s' : State) (r : result Z) (p : string) :
  main env s = (r, s') ->
  p <> "npp_installer_x64.exe"%string -> p <> "npp_installer_x86.exe"%string ->
  (p ∈ files s' <-> p ∈ files s).
Proof.
  intros H H64 H86.
  apply main_state in H as [-> | [-> | (a & Ha & [(r2 & Hg & Hr) | (s2 & rb & Hg & Hrun)])]];
    try reflexivity.
  - assert (Hp : p <> installer_file a) by (destruct Ha as [-> | ->]; assumption).
    apply get_installer_other_state in Hg as (Hf & _); [|exact Hr].
    apply (Hf p Hp).
  - assert (Hp : p <> installer_file a) by (destruct Ha as [-> | ->]; assumption).
    apply get_installer_some_state in Hg as (_ & u & ->).
    apply run_installer_state in Hrun as (_ & _ & Hfiles).
    rewrite (Hfiles p Hp). cbn [files requested].
    rewrite elem_of_union, elem_of_singleton. tauto.
Qed.

Lemma main_touches_only_installer_file_witness :
  "notes.txt"%string
  ∈ files (snd (main Sample.env_update (initial {["notes.txt"%string]}))).
Proof.
  apply (main_touches_only_installer_file Sample.env_update
           (initial {["notes.txt"%string]}) _ _ "notes.txt" (surjective_pairing _)).
  - discriminate.
  - discriminate.
  - cbn [initial files]. apply elem_of_singleton. reflexivity.
Defined.



(** X20.  A whole update, stage by stage: with an older installation, an
    eligible asset in the answer to the second feed request whose URL
    [requests] accepts, a download that is answered and copied to the end,
    and an installer file that can be written and deleted, [main] sends the
    three requests, starts the installer once, deletes the file again and
    returns 1 when the installer exits with 0 and 5 otherwise. *)
Theorem main_update_end_to_end
    (env : Env) (s : State) (cv lv : string) (arch : Architecture)
    (res r3 : response) (doc : json) (assets : list AssetDescriptor) (d : AssetDescriptor) :
  let file := installer_file (arch_name arch) in
  installed env s cv (arch_name arch) ->
  fetched env s lv (requested GITHUB_RELEASES_URL s) ->
  compare_version cv lv = Ok (-1) ->
  http env (S (length (net_log s))) GITHUB_RELEASES_URL = Some res ->
  status_ok res = true ->
  body res = Some doc ->
  Py.getitem doc "assets" = Ok (JArr (map asset_json assets)) ->
  select assets arch = Some d ->
  sendable env (downloadUrl d) = true ->
  http env (S (S (length (net_log s)))) (downloadUrl d) = Some r3 ->
  status_ok r3 = true ->
  raw r3 = Copied ->
  file ∉ unwritable env ->
  file ∉ undeletable env ->
  main env s
  = (Ok (match installer env [file; "/S"%string] with ExitZero => 1 | _ => 5 end),
     mkState (({[file]} ∪ files s) ∖ {[file]})
       (net_log s ++ [GITHUB_RELEASES_URL; GITHUB_RELEASES_URL; downloadUrl d])
       (proc_log s ++ [[file; "/S"%string]])).
Proof.
  intros file Hi Hf Hc Hres Hst Hdoc Hassets Hsel Hu Hr3 Hst3 Hraw Hw Hd.
  assert (Hdl : reaches_download env s (arch_name arch) (requested GITHUB_RELEASES_URL s)).
  { exists cv, lv, (-1). repeat split; try apply Hi; try apply Hf; auto; lia. }
  rewrite (main_after_download_stage env _ _ _ Hdl), get_installer_eq. cbn zeta.
  assert (Hlen1 : length (net_log (requested GITHUB_RELEASES_URL s))
                  = S (length (net_log s)))
    by (cbn [requested net_log]; rewrite length_app; cbn [length]; lia).
  assert (Hlen2 : length (net_log (requested GITHUB_RELEASES_URL
                                     (requested GITHUB_RELEASES_URL s)))
                  = S (S (length (net_log s))))
    by (cbn [requested net_log]; rewrite !length_app; cbn [length]; lia).
  assert (Htext : Str.truthy (downloadUrl d) = true).
  { unfold sendable, Url.has_http_scheme in Hu. apply andb_true_iff in Hu as [Hu _].
    destruct (downloadUrl d); [discriminate Hu | reflexivity]. }
  rewrite Hlen1, Hres, Hst, Hdoc, Hassets. cbn [Py.iter].
  rewrite select_download_url_typed, Hsel. cbn [Py.truthy]. rewrite Htext, Hu.
  rewrite Hlen2, Hr3, Hst3, Hraw.
  destruct (decide (installer_file (arch_name arch) ∈ unwritable env)); [contradiction|].
  rewrite run_installer_eq. cbn zeta. cbn [files requested net_log proc_log started].
  destruct (decide (installer_file (arch_name arch)
                    ∈ {[installer_file (arch_name arch)]} ∪ files s)) as [_|Hn].
  2:{ destruct Hn. apply elem_of_union_l, elem_of_singleton. reflexivity. }
  destruct (decide (installer_file (arch_name arch) ∈ undeletable env)); [contradiction|].
  fold file. rewrite <- !app_assoc. cbn [app].
  destruct (installer env [file; "/S"%string]); reflexivity.
Qed.

Lemma main_update_end_to_end_witness :
  main Sample.env_update Sample.start
  = (Ok 1,
     mkState (({["npp_installer_x64.exe"%string]} ∪ ∅) ∖ {["npp_installer_x64.exe"%string]})
       [GITHUB_RELEASES_URL; GITHUB_RELEASES_URL;
        "https://example.org/npp.8.6.3.Installer.x64.exe"%string]
       [["npp_installer_x64.exe"; "/S"]%string]).
Proof.
  apply (main_update_end_to_end Sample.env_update Sample.start "4.5.1" "8.6.3" x64
           (mkResponse true (Some (Sample.release "v8.6.3" Sample.assets_863)) Copied)
           (mkResponse true (Some (Sample.release "v8.6.3" Sample.assets_863)) Copied)
           (Sample.release "v8.6.3" Sample.assets_863)
           [mkAsset "npp.8.6.3.Installer.exe" "https://example.org/npp.8.6.3.Installer.exe";
            mkAsset "npp.8.6.3.portable.x64.zip"
              "https://example.org/npp.8.6.3.portable.x64.zip";
            mkAsset "npp.8.6.3.Installer.x64.exe"
              "https://example.org/npp.8.6.3.Installer.x64.exe"]
           (mkAsset "npp.8.6.3.Installer.x64.exe"
              "https://example.org/npp.8.6.3.Installer.x64.exe")).
  - repeat split; vm_compute; reflexivity.
  - split; vm_compute; reflexivity.
  - reflexivity.
  - reflexivity.
  - reflexivity.
  - reflexivity.
  - reflexivity.
  - reflexivity.
  - reflexivity.
  - reflexivity.
  - reflexivity.
  - reflexivity.
  - apply not_elem_of_empty.
  - apply not_elem_of_empty.
Defined.
